(** * MediScreen: the client's prediction flow and the inference core

    The development has two layers.

    - The React client, embedded from its sources: the local history hook
      ([hooks/useLocalHistory]), the two form pages ([pages/DiabetesPredictor],
      [pages/HeartPredictor]), the what-if panel ([components/WhatIfSlider])
      and the two result widgets ([components/ConfidenceMeter],
      [components/ResultsView]). Component state is passed explicitly; an
      event handler is a function from the state before to the state after,
      and an awaited request is a function from the body sent to the outcome
      received.
    - The inference and comparison engine behind [/predict] and [/what-if].
      The backend's code is not among the sources embedded here, so that
      layer follows the written specification; each such definition says so.

    Numbers are exact rationals ([Q]); a JavaScript number is a rational or
    [NaN]. *)

From Stdlib Require Import Ascii QArith Qabs Qround Lqa.
From stdpp Require Import gmap strings list pretty.

(** ** JavaScript values used by the client *)

Module Js.

(** A number as the client handles it. The forms only ever produce finite
    numbers or [NaN] (the result of [parseFloat] on text that does not start
    with a numeral). *)
Inductive number : Type :=
  | NaN
  | Num (q : Q).

(** [a !== b] on two property reads; [None] is [undefined]. [NaN] differs
    from everything, itself included. *)
Definition strict_neq (a b : option number) : bool :=
  match a, b with
  | None, None => false
  | Some (Num x), Some (Num y) => negb (Qeq_bool x y)
  | _, _ => true
  end.

(** [a === b], as a proposition: both [undefined], or both numbers (not
    [NaN]) and equal. *)
Definition same_number (a b : option number) : Prop :=
  match a, b with
  | None, None => True
  | Some (Num x), Some (Num y) => x == y
  | _, _ => False
  end.

(** [Math.round]: nearest integer, halves go up. *)
Definition round (x : Q) : Z := Qfloor (x + (1 # 2)).

(** [v || 0] for a property read that should hold a number: [undefined],
    [NaN] and [0] all give [0]. *)
Definition or_zero (v : option number) : Q :=
  match v with
  | Some (Num q) => q
  | _ => 0
  end.

(** [s || fallback] on strings: the empty string is falsy. *)
Definition or_else (s fallback : string) : string :=
  if String.eqb s "" then fallback else s.

(** What an object that may have been through JSON holds where a number was
    put: the number, or [null]. *)
Inductive value : Type :=
  | Null
  | Number (n : number).

(** [JSON.parse(JSON.stringify(v))] on such a value: a number that is not
    finite is written as [null], every other value reads back as it was. *)
Definition json (v : value) : value :=
  match v with
  | Number NaN => Null
  | _ => v
  end.

End Js.

(** ** The response of the prediction endpoints, as the client reads it *)

Module Api.

(** [response.result]. Only the keys the embedded components read are kept;
    [top_factors], [lifestyle_tips], [recommendation] and [disclaimer] are
    rendered verbatim by [ResultsView] and play no part below. *)
Record Prediction : Type := {
  prediction : Z;
  probability : Q;
  confidence_level : string
}.

(** The body of a successful [/predict] call. A body without a [result] key
    is possible as far as the client is concerned ([response.json()] is not
    checked), hence the option. *)
Record Response : Type := {
  result : option Prediction;
  warnings : list string
}.

(** The body of a successful [/what-if] call. *)
Record Comparison : Type := {
  original_prediction : Prediction;
  modified_prediction : Prediction;
  probability_change : Q;
  key_changes : list string
}.

(** What awaiting [apiRequest] gives: the parsed body, or a thrown [Error]
    with its message. *)
Inductive Outcome (A : Type) : Type :=
  | Resolved (body : A)
  | Rejected (message : string).

Arguments Resolved {A} body.
Arguments Rejected {A} message.

End Api.

(** ** hooks/useLocalHistory *)

Module UseLocalHistory.

Definition STORAGE_KEY : string := "mediscreen_history".
Definition MAX_HISTORY : nat := 50.

(** One assessment of the history. [inputs] is the object the caller handed
    to [addToHistory]; in an entry that was loaded from the storage it holds
    [null] where that object held [NaN]. *)
Record Entry : Type := {
  id : Z;
  timestamp : string;
  disease : string;
  inputs : gmap string Js.value;
  prediction : Z;
  probability : Q;
  confidenceLevel : string
}.

(** What [JSON.parse] reads from the text [JSON.stringify] wrote for an
    entry, and for a history. Only [inputs] can differ: the other keys hold
    strings and finite numbers. *)
Definition parseEntry (e : Entry) : Entry :=
  {| id := id e; timestamp := timestamp e; disease := disease e;
     inputs := Js.json <$> inputs e;
     prediction := prediction e; probability := probability e;
     confidenceLevel := confidenceLevel e |}.

Definition parse (text : list Entry) : list Entry := parseEntry <$> text.

(** The browser's [localStorage]. The JSON text kept under a key is modelled
    by the history it was written from; reading it back goes through
    [parse]. [full] and [later] are the browser's answers to the writes to
    come: whether the next [setItem] throws (quota exceeded, storage
    disabled), and whether the ones after it do, in order; writes past the
    end of [later] go through. *)
Record Storage : Type := {
  items : gmap string (list Entry);
  full : bool;
  later : list bool
}.

(** The storage when a call of [setItem] is over: the browser's next answer
    is the one that counts. *)
Definition next (s : Storage) : Storage :=
  {| items := items s;
     full := default false (head (later s));
     later := tail (later s) |}.

(** Whether the [n]-th write from now throws. *)
Definition throws (s : Storage) (n : nat) : bool :=
  default false ((full s :: later s) !! n).

(** [localStorage.setItem]: the storage afterwards, and whether the call
    returned; [false] stands for the exception, and then nothing was
    written. *)
Definition setItem (key : string) (value : list Entry) (s : Storage) : Storage * bool :=
  if full s then (next s, false)
  else (next {| items := <[key := value]> (items s); full := full s; later := later s |},
        true).

(** [localStorage.getItem]: the text under the key, if any. *)
Definition getItem (key : string) (s : Storage) : option (list Entry) :=
  items s !! key.

(** The hook's React state together with the storage it writes to. A
    handler reads the [history] of the render it was created in; handlers are
    taken to run one at a time, each on the state the previous one left. *)
Record Hook : Type := {
  history : list Entry;
  localStorage : Storage
}.

(** The mount effect: a stored history, when there is one, becomes the
    state, as [JSON.parse] reads it. *)
Definition loadHistory (h : Hook) : Hook :=
  match getItem STORAGE_KEY (localStorage h) with
  | Some stored => {| history := parse stored; localStorage := localStorage h |}
  | None => h
  end.

(** The hook as a page first sees it: the empty initial state, then the
    mount effect. *)
Definition mount (s : Storage) : Hook :=
  loadHistory {| history := []; localStorage := s |}.

(** [saveHistory]: the state is set first; a failing write is caught (and
    only logged), the state stays set. *)
Definition saveHistory (newHistory : list Entry) (h : Hook) : Hook :=
  {| history := newHistory;
     localStorage := fst (setItem STORAGE_KEY newHistory (localStorage h)) |}.

(** [addToHistory]. [now] and [iso] are the two clock readings ([Date.now()]
    and [new Date().toISOString()]). [None] stands for the [TypeError] of
    reading [result.result.prediction] off a body without [result]; it is
    thrown before anything is saved. *)
Definition addToHistory (now : Z) (iso : string) (disease : string)
    (inputs : gmap string Js.value) (result : Api.Response) (h : Hook)
    : option (Entry * Hook) :=
  match Api.result result with
  | None => None
  | Some r =>
      let entry :=
        {| id := now;
           timestamp := iso;
           disease := disease;
           inputs := inputs;
           prediction := Api.prediction r;
           probability := Api.probability r;
           confidenceLevel := Api.confidence_level r |} in
      let newHistory := take MAX_HISTORY (entry :: history h) in
      Some (entry, saveHistory newHistory h)
  end.

Definition getHistoryByDisease (d : string) (h : Hook) : list Entry :=
  filter (λ e, disease e = d) (history h).

Definition clearHistory (h : Hook) : Hook := saveHistory [] h.

Definition clearDiseaseHistory (d : string) (h : Hook) : Hook :=
  saveHistory (filter (λ e, disease e ≠ d) (history h)) h.

Definition deleteEntry (i : Z) (h : Hook) : Hook :=
  saveHistory (filter (λ e, id e ≠ i) (history h)) h.

(** The history kept under the hook's key, if any (the one its text was
    written from). *)
Definition stored (h : Hook) : option (list Entry) :=
  getItem STORAGE_KEY (localStorage h).

End UseLocalHistory.

(** ** components/ConfidenceMeter *)

Module ConfidenceMeter.

(** The width of the bar and the figure next to it. *)
Definition percentage (probability : Q) : Z := Js.round (probability * 100).

(** The visual class of the bar. *)
Definition barClass (confidenceLevel : string) (prediction : Z) : string :=
  if String.eqb confidenceLevel "HIGH" then
    if Z.eqb prediction 1 then "high-risk" else "high-safe"
  else if String.eqb confidenceLevel "MEDIUM" then "medium"
  else "low".

(** The badge text; a level outside the table reads [undefined]. *)
Definition levelText (confidenceLevel : string) : option string :=
  if String.eqb confidenceLevel "LOW" then Some "Low Confidence"
  else if String.eqb confidenceLevel "MEDIUM" then Some "Moderate Confidence"
  else if String.eqb confidenceLevel "HIGH" then Some "High Confidence"
  else None.

End ConfidenceMeter.

(** ** components/ResultsView *)

Module ResultsView.

Definition isHighRisk (p : Api.Prediction) : bool := Z.eqb (Api.prediction p) 1.

Definition riskTitle (p : Api.Prediction) : string :=
  if isHighRisk p then "Elevated Risk Detected" else "Low Risk Indicated".

Definition confidenceNote (p : Api.Prediction) : string :=
  if String.eqb (Api.confidence_level p) "HIGH" then
    "The model is highly confident in this assessment."
  else if String.eqb (Api.confidence_level p) "MEDIUM" then
    "The model has moderate confidence. Consider consulting a healthcare provider."
  else "The model confidence is low. Results are inconclusive.".

End ResultsView.

(** ** Form fields *)

Module Form.

(** One entry of a page's [formFields] table. The keys that only decorate
    the input ([placeholder], [hint], [unit]) are left out. *)
Record Field : Type := {
  name : string;
  label : string;
  type : string;
  min : Q;
  max : Q;
  step : Q
}.

(** What a field's error slot holds. The text shown is "This field is
    required", "Must be a number", or "Must be between [lo] and [hi]". *)
Inductive FieldError : Type :=
  | Required
  | NotANumber
  | OutOfRange (lo hi : Q).

End Form.

(** ** components/WhatIfSlider *)

Module WhatIfSlider.

Record State : Type := {
  modifiedValues : gmap string Js.number;
  isAnalyzing : bool;
  comparisonResult : option Api.Comparison;
  (** The what-if requests sent so far, oldest first. *)
  analyses : list (gmap string Js.number * gmap string Js.number);
  (** What [console.error] has printed so far, oldest first. *)
  console : list string
}.

(** The state at mount: a copy of the original values, nothing compared. *)
Definition initial (originalValues : gmap string Js.number) : State :=
  {| modifiedValues := originalValues;
     isAnalyzing := false;
     comparisonResult := None;
     analyses := [];
     console := [] |}.

(** [hasChanges]: some key of the original values reads differently in the
    modified values. *)
Definition hasChanges (originalValues modifiedValues : gmap string Js.number) : bool :=
  existsb (λ key, Js.strict_neq (originalValues !! key) (modifiedValues !! key))
          (elements (dom originalValues)).

(** The sliders shown: the first six numeric fields. *)
Definition sliders (fields : list Form.Field) : list Form.Field :=
  take 6 (filter (λ f, Form.type f = "number") fields).

(** Whether a slider is drawn as changed. *)
Definition isChanged (originalValues : gmap string Js.number) (st : State)
    (field : Form.Field) : bool :=
  negb (Qeq_bool (Js.or_zero (originalValues !! Form.name field))
                 (Js.or_zero (modifiedValues st !! Form.name field))).

(** The two action buttons are disabled under these conditions. *)
Definition resetDisabled (originalValues : gmap string Js.number) (st : State) : bool :=
  negb (hasChanges originalValues (modifiedValues st)).

Definition compareDisabled (originalValues : gmap string Js.number) (st : State) : bool :=
  negb (hasChanges originalValues (modifiedValues st)) || isAnalyzing st.

(** The caption under a comparison. *)
Definition changeLabel (c : Api.Comparison) : string :=
  if negb (Qle_bool (Api.probability_change c) 0) then "increased" else "decreased".

Definition changePercent (c : Api.Comparison) : Z :=
  Z.abs (Js.round (Api.probability_change c * 100)).

Section Handlers.

(** The browser's [parseFloat], and the awaited [onAnalyze] prop. *)
Variable parseFloat : string → Js.number.
Variable onAnalyze :
  gmap string Js.number → gmap string Js.number → Api.Outcome Api.Comparison.

Definition handleSliderChange (name value : string) (st : State) : State :=
  {| modifiedValues := <[name := parseFloat value]> (modifiedValues st);
     isAnalyzing := isAnalyzing st;
     comparisonResult := comparisonResult st;
     analyses := analyses st;
     console := console st |}.

(** [handleAnalyze], from the click to the end of the [finally] block. A
    failed request is caught and printed to the console; the previous
    comparison stays. *)
Definition handleAnalyze (originalValues : gmap string Js.number) (st : State) : State :=
  match onAnalyze originalValues (modifiedValues st) with
  | Api.Resolved r =>
      {| modifiedValues := modifiedValues st;
         isAnalyzing := false;
         comparisonResult := Some r;
         analyses := analyses st ++ [(originalValues, modifiedValues st)];
         console := console st |}
  | Api.Rejected message =>
      {| modifiedValues := modifiedValues st;
         isAnalyzing := false;
         comparisonResult := comparisonResult st;
         analyses := analyses st ++ [(originalValues, modifiedValues st)];
         console := console st ++ ["What-if analysis failed: " +:+ message] |}
  end.

Definition handleReset (originalValues : gmap string Js.number) (st : State) : State :=
  {| modifiedValues := originalValues;
     isAnalyzing := isAnalyzing st;
     comparisonResult := None;
     analyses := analyses st;
     console := console st |}.

(** A click on "Compare Predictions": a disabled button does not fire. *)
Definition clickCompare (originalValues : gmap string Js.number) (st : State) : State :=
  if compareDisabled originalValues st then st
  else handleAnalyze originalValues st.

(** A click on "Reset", likewise. *)
Definition clickReset (originalValues : gmap string Js.number) (st : State) : State :=
  if resetDisabled originalValues st then st
  else handleReset originalValues st.

(** The click was answered with an error: a line was added to the console. *)
Definition reportsFailure (st st' : State) : Prop :=
  ∃ line, console st' = console st ++ [line].

End Handlers.

End WhatIfSlider.

(** ** pages/DiabetesPredictor *)

Module DiabetesPredictor.

Import Form.

Definition formFields : list Field := [
  {| name := "pregnancies"; label := "Number of Pregnancies"; type := "number";
     min := 0; max := 20; step := 1 |};
  {| name := "glucose"; label := "Plasma Glucose"; type := "number";
     min := 40; max := 300; step := 1 |};
  {| name := "blood_pressure"; label := "Blood Pressure"; type := "number";
     min := 40; max := 150; step := 1 |};
  {| name := "skin_thickness"; label := "Skin Thickness"; type := "number";
     min := 0; max := 100; step := 1 |};
  {| name := "insulin"; label := "Insulin Level"; type := "number";
     min := 0; max := 1000; step := 1 |};
  {| name := "bmi"; label := "Body Mass Index (BMI)"; type := "number";
     min := 10; max := 70; step := 1 # 10 |};
  {| name := "diabetes_pedigree"; label := "Diabetes Pedigree Function"; type := "number";
     min := 0; max := 3; step := 1 # 100 |};
  {| name := "age"; label := "Age"; type := "number";
     min := 1; max := 120; step := 1 |}
].

(** The page's state: its own [useState] cells, the history hook, and the
    bodies posted to [/diabetes/predict] so far (oldest first). *)
Record State : Type := {
  formData : gmap string string;
  errors : gmap string FieldError;
  loading : bool;
  result : option Api.Response;
  apiError : option string;
  showWhatIf : bool;
  hook : UseLocalHistory.Hook;
  requests : list (gmap string Js.number)
}.

Section Handlers.

(** The browser's [parseFloat]; the awaited [diabetesApi.predict]; the text
    the engine gives a [TypeError]. *)
Variable parseFloat : string → Js.number.
Variable predict : gmap string Js.number → Api.Outcome Api.Response.
Variable typeErrorMessage : string.

(** [parseFloat(formData[name])]; a missing key reads [undefined], which
    parses to [NaN]. *)
Definition parseField (formData : gmap string string) (key : string) : Js.number :=
  match formData !! key with
  | Some value => parseFloat value
  | None => Js.NaN
  end.

(** The body of the [forEach] in [validateForm], for one field. *)
Definition checkField (formData : gmap string string) (field : Field) : option FieldError :=
  match formData !! name field with
  | None => Some Required
  | Some value =>
      if String.eqb value "" then Some Required
      else match parseFloat value with
           | Js.NaN => Some NotANumber
           | Js.Num numValue =>
               if negb (Qle_bool (min field) numValue) || negb (Qle_bool numValue (max field))
               then Some (OutOfRange (min field) (max field))
               else None
           end
  end.

Definition newErrors (formData : gmap string string) : gmap string FieldError :=
  foldl (λ errs field,
           match checkField formData field with
           | Some e => <[name field := e]> errs
           | None => errs
           end)
        ∅ formFields.

(** [validateForm]: the errors are stored, the answer is whether there are
    none. *)
Definition validateForm (st : State) : State * bool :=
  let errs := newErrors (formData st) in
  ({| formData := formData st; errors := errs; loading := loading st;
      result := result st; apiError := apiError st; showWhatIf := showWhatIf st;
      hook := hook st; requests := requests st |},
   Nat.eqb (size errs) 0).

(** The request body built in [handleSubmit]. *)
Definition payload (formData : gmap string string) : gmap string Js.number :=
  foldl (λ p field, <[name field := parseField formData (name field)]> p) ∅ formFields.

(** [handleChange]: the value is stored and the field's error, if any, is
    cleared (set to [null], which reads as absent). *)
Definition handleChange (key value : string) (st : State) : State :=
  {| formData := <[key := value]> (formData st);
     errors := delete key (errors st);
     loading := loading st; result := result st; apiError := apiError st;
     showWhatIf := showWhatIf st; hook := hook st; requests := requests st |}.

(** [handleSubmit], from the submit event to the end of the [finally]
    block. [now] and [iso] are the clock readings taken by [addToHistory]. *)
Definition handleSubmit (now : Z) (iso : string) (st : State) : State :=
  let (st1, ok) := validateForm st in
  if negb ok then st1
  else
    let body := payload (formData st1) in
    let sent := requests st1 ++ [body] in
    match predict body with
    | Api.Rejected message =>
        {| formData := formData st1; errors := errors st1; loading := false;
           result := result st1;
           apiError := Some (Js.or_else message "Failed to get prediction. Please try again.");
           showWhatIf := showWhatIf st1; hook := hook st1; requests := sent |}
    | Api.Resolved response =>
        match UseLocalHistory.addToHistory now iso "diabetes" (Js.Number <$> body) response
                (hook st1) with
        | Some (_, hook') =>
            {| formData := formData st1; errors := errors st1; loading := false;
               result := Some response; apiError := None;
               showWhatIf := showWhatIf st1; hook := hook'; requests := sent |}
        | None =>
            {| formData := formData st1; errors := errors st1; loading := false;
               result := Some response;
               apiError := Some (Js.or_else typeErrorMessage
                                   "Failed to get prediction. Please try again.");
               showWhatIf := showWhatIf st1; hook := hook st1; requests := sent |}
        end
    end.

Definition handleReset (st : State) : State :=
  {| formData := ∅; errors := ∅; loading := loading st; result := None;
     apiError := None; showWhatIf := false; hook := hook st;
     requests := requests st |}.

(** The [originalValues] prop handed to the what-if panel:
    [Object.fromEntries] over the fields, in order. *)
Definition originalValues (st : State) : gmap string Js.number :=
  foldl (λ o f, <[name f := parseField (formData st) (name f)]> o) ∅ formFields.

(** [handleWhatIfAnalyze]: the awaited [diabetesApi.whatIf] on the two value
    maps. *)
Variable whatIf :
  gmap string Js.number → gmap string Js.number → Api.Outcome Api.Comparison.

Definition handleWhatIfAnalyze (original modified : gmap string Js.number)
    : Api.Outcome Api.Comparison :=
  whatIf original modified.

End Handlers.

End DiabetesPredictor.

(** ** pages/HeartPredictor *)

Module HeartPredictor.

(** One entry of the page's [formFields] table. Its handler reads the name
    only; [min], [max], [step] and [options] shape the inputs and are left
    out. *)
Record Field : Type := {
  name : string;
  label : string;
  type : string
}.

Definition formFields : list Field := [
  {| name := "age"; label := "Age"; type := "number" |};
  {| name := "sex"; label := "Sex"; type := "select" |};
  {| name := "chest_pain_type"; label := "Chest Pain Type"; type := "select" |};
  {| name := "resting_bp"; label := "Resting Blood Pressure"; type := "number" |};
  {| name := "cholesterol"; label := "Cholesterol"; type := "number" |};
  {| name := "fasting_blood_sugar"; label := "Fasting Blood Sugar > 120 mg/dL";
     type := "select" |};
  {| name := "resting_ecg"; label := "Resting ECG"; type := "select" |};
  {| name := "max_heart_rate"; label := "Max Heart Rate"; type := "number" |};
  {| name := "exercise_angina"; label := "Exercise Induced Angina"; type := "select" |};
  {| name := "st_depression"; label := "ST Depression"; type := "number" |};
  {| name := "st_slope"; label := "ST Slope"; type := "select" |};
  {| name := "num_vessels"; label := "Major Vessels Colored"; type := "select" |};
  {| name := "thalassemia"; label := "Thalassemia"; type := "select" |}
].

(** The page's state and the bodies posted to [/heart/predict] so far. The
    page keeps no history. An error slot holds the text "Required". *)
Record State : Type := {
  formData : gmap string string;
  errors : gmap string Form.FieldError;
  loading : bool;
  result : option Api.Response;
  apiError : option string;
  requests : list (gmap string Js.number)
}.

Section Handlers.

Variable parseFloat : string → Js.number.
Variable predict : gmap string Js.number → Api.Outcome Api.Response.

Definition parseField (formData : gmap string string) (key : string) : Js.number :=
  match formData !! key with
  | Some value => parseFloat value
  | None => Js.NaN
  end.

(** [formData[f.name] === undefined || formData[f.name] === ''] *)
Definition isBlank (formData : gmap string string) (f : Field) : bool :=
  match formData !! name f with
  | None => true
  | Some value => String.eqb value ""
  end.

Definition newErrors (formData : gmap string string) : gmap string Form.FieldError :=
  foldl (λ errs f, if isBlank formData f then <[name f := Form.Required]> errs else errs)
        ∅ formFields.

Definition payload (formData : gmap string string) : gmap string Js.number :=
  foldl (λ p f, <[name f := parseField formData (name f)]> p) ∅ formFields.

(** [handleSubmit], from the submit event to the end of the [finally]
    block. The errors are stored only when there are some. *)
Definition handleSubmit (st : State) : State :=
  let errs := newErrors (formData st) in
  if negb (Nat.eqb (size errs) 0) then
    {| formData := formData st; errors := errs; loading := loading st;
       result := result st; apiError := apiError st; requests := requests st |}
  else
    let body := payload (formData st) in
    match predict body with
    | Api.Resolved response =>
        {| formData := formData st; errors := errors st; loading := false;
           result := Some response; apiError := None;
           requests := requests st ++ [body] |}
    | Api.Rejected message =>
        {| formData := formData st; errors := errors st; loading := false;
           result := result st;
           apiError := Some (Js.or_else message "Prediction failed");
           requests := requests st ++ [body] |}
    end.

Definition handleReset (st : State) : State :=
  {| formData := ∅; errors := ∅; loading := loading st; result := None;
     apiError := None; requests := requests st |}.

End Handlers.

End HeartPredictor.

(** ** A decimal reader for the examples

    The handlers above take the browser's [parseFloat] as a parameter. The
    examples instantiate it with [parseDecimal], which reads what a number
    input can hold: leading blanks, an optional sign, digits, optionally a
    point and more digits. What follows the numeral is ignored; a text
    without a numeral gives [NaN]. Exponents and the word [Infinity] are not
    read. *)

Module Decimal.

Definition digit (c : ascii) : option Z :=
  let n := nat_of_ascii c in
  if (48 <=? n)%nat && (n <=? 57)%nat then Some (Z.of_nat (n - 48)) else None.

(** Reads a run of digits: the value with [acc] as the digits already read,
    how many digits were read, and the rest of the text. *)
Fixpoint digits (s : string) (acc : Z) (count : nat) : Z * nat * string :=
  match s with
  | String c rest =>
      match digit c with
      | Some d => digits rest (10 * acc + d)%Z (S count)
      | None => (acc, count, s)
      end
  | EmptyString => (acc, count, s)
  end.

Fixpoint skipBlanks (s : string) : string :=
  match s with
  | String " " rest => skipBlanks rest
  | _ => s
  end.

Definition unsigned (s : string) : option Q :=
  let '(whole, n1, rest) := digits s 0%Z 0%nat in
  let '(all, n2, _) :=
    match rest with
    | String "." rest' => digits rest' whole 0%nat
    | _ => (whole, 0%nat, rest)
    end in
  if Nat.eqb (n1 + n2) 0 then None
  else Some (Qred (all # Z.to_pos (10 ^ Z.of_nat n2))).

Definition parseDecimal (s : string) : Js.number :=
  match skipBlanks s with
  | String "-" rest =>
      match unsigned rest with Some q => Js.Num (- q) | None => Js.NaN end
  | String "+" rest =>
      match unsigned rest with Some q => Js.Num q | None => Js.NaN end
  | t =>
      match unsigned t with Some q => Js.Num q | None => Js.NaN end
  end.

End Decimal.

(** ** The inference and comparison engine

    The scoring service behind [/predict] and [/what-if] lives in the
    backend ([backend/app/ml/inference.py] and the route modules), which is
    not among the sources embedded above. Everything in this module is
    therefore written from the specification's sections 3, 4.3 and 4.4. *)

Module Engine.

(** Modelled from the spec: the derived confidence level of a
    PredictionResult (section 3); the backend's enumeration is missing. *)
Inductive ConfidenceLevel : Type :=
  | LOW
  | MEDIUM
  | HIGH.

(** Modelled from the spec: the error taxonomy of section 7; the backend's
    exception classes are missing. *)
Inductive EngineError : Type :=
  | NotFound
  | LoadFailure
  | SchemaMismatch
  | RangeViolation
  | NoChangeError.

(** Modelled from the spec: the outcome of a fallible engine call; the
    backend raises where this returns [Err]. *)
Inductive Result (A : Type) : Type :=
  | Ok (a : A)
  | Err (e : EngineError).

Arguments Ok {A} a.
Arguments Err {A} e.

(** Modelled from the spec: one declared feature of a bundle's metadata,
    with its human label and optional numeric bounds [min, max] (sections 3
    and 4.3); the backend's metadata schema is missing. *)
Record FeatureDecl : Type := {
  fname : string;
  flabel : string;
  bounds : option (Q * Q)
}.

(** Modelled from the spec: the ArtifactBundle of section 3, a scorer, an
    explainer and metadata; the threshold and K are configurable and
    optional (section 4.3). A FeatureVector is a map from feature name to
    value. The backend's bundle type is missing. *)
Record ArtifactBundle : Type := {
  domain : string;
  version : string;
  scorer : gmap string Q → Q;
  explainer : gmap string Q → list (string * Q);
  features : list FeatureDecl;
  threshold_cfg : option Q;
  top_k_cfg : option nat;
  metrics : list (string * Q);
  calibrated : bool
}.

(** Modelled from the spec: the decision threshold, "a bundle-level
    configurable, defaulting to 0.5" (section 4.3). *)
Definition threshold (b : ArtifactBundle) : Q := default (1 # 2) (threshold_cfg b).

(** Modelled from the spec: the number of attributions returned, "top-K
    (default 5)" (section 4.3). *)
Definition top_k (b : ArtifactBundle) : nat := default 5%nat (top_k_cfg b).

(** Modelled from the spec: the direction of an attribution, the sign of its
    contribution (glossary, "signed contribution"). *)
Inductive Direction : Type :=
  | Raises
  | Lowers.

(** Modelled from the spec: one (feature, contribution, direction) tuple of
    a PredictionResult (section 3). *)
Record Factor : Type := {
  feature : string;
  contribution : Q;
  direction : Direction
}.

(** Modelled from the spec: the PredictionResult of section 3. *)
Record PredictionResult : Type := {
  prediction : Z;
  probability : Q;
  confidence : ConfidenceLevel;
  top_factors : list Factor
}.

(** Modelled from the spec: the ComparisonResult of section 3, "two
    PredictionResults plus the signed probability delta plus an ordered list
    of human-readable change descriptions". *)
Record ComparisonResult : Type := {
  original : PredictionResult;
  modified : PredictionResult;
  probability_change : Q;
  key_changes : list string
}.

(** Modelled from the spec: what the engine can do to its surroundings. The
    bundle's two callables are collaborators, so each invocation is
    recorded; [durable] is the storage that the privacy requirement of
    section 4.3 is about. *)
Inductive Call : Type :=
  | ScorerCall (v : gmap string Q)
  | ExplainerCall (v : gmap string Q).

(** Modelled from the spec: a record in durable storage, "identifiable input
    data" or a prediction output (section 4.3). *)
Inductive Persisted : Type :=
  | PersistedInput (v : gmap string Q)
  | PersistedResult (r : PredictionResult).

(** Modelled from the spec: the surroundings of an engine call, the
    invocations made so far and the durable storage. *)
Record World : Type := {
  calls : list Call;
  durable : list Persisted
}.

(** Modelled from the spec: recording an invocation of a collaborator. *)
Definition invoke (c : Call) (w : World) : World :=
  {| calls := calls w ++ [c]; durable := durable w |}.

(** Modelled from the spec: "LOW if within 0.1 of 0.5, HIGH if beyond 0.3
    from 0.5, MEDIUM otherwise", both bounds inclusive (sections 4.3 and
    8). *)
Definition confidence_level (p : Q) : ConfidenceLevel :=
  let d := Qabs (p - (1 # 2)) in
  if Qle_bool d (1 # 10) then LOW
  else if Qle_bool (3 # 10) d then HIGH
  else MEDIUM.

(** Modelled from the spec: "fails with SchemaMismatch if a required feature
    is missing". *)
Definition is_missing (v : gmap string Q) (f : FeatureDecl) : bool :=
  match v !! fname f with
  | Some _ => false
  | None => true
  end.

(** Modelled from the spec: "fails with RangeViolation if a declared numeric
    bound is violated". *)
Definition out_of_bounds (v : gmap string Q) (f : FeatureDecl) : bool :=
  match bounds f, v !! fname f with
  | Some (lo, hi), Some x => negb (Qle_bool lo x) || negb (Qle_bool x hi)
  | _, _ => false
  end.

(** Modelled from the spec: the validation step of [score] (section 4.3),
    the schema check first and the bounds after it. *)
Definition validate (b : ArtifactBundle) (v : gmap string Q) : option EngineError :=
  if existsb (is_missing v) (features b) then Some SchemaMismatch
  else if existsb (out_of_bounds v) (features b) then Some RangeViolation
  else None.

(** Modelled from the spec: the position of a feature in the declaration
    order; an undeclared name comes after all declared ones. *)
Fixpoint decl_index (decls : list FeatureDecl) (f : string) : nat :=
  match decls with
  | [] => 0%nat
  | d :: rest => if String.eqb (fname d) f then 0%nat else S (decl_index rest f)
  end.

(** Modelled from the spec: the ranking of attributions, "by absolute
    contribution magnitude, ... descending, ties broken by original feature
    declaration order" (section 4.3). *)
Definition ranks_before (decls : list FeatureDecl) (x y : string * Q) : bool :=
  let mx := Qabs (snd x) in
  let my := Qabs (snd y) in
  if Qeq_bool mx my then (decl_index decls (fst x) <=? decl_index decls (fst y))%nat
  else Qle_bool my mx.

(** Modelled from the spec: the stable sort of section 4.3, by insertion. *)
Fixpoint insert_ranked (decls : list FeatureDecl) (x : string * Q)
    (l : list (string * Q)) : list (string * Q) :=
  match l with
  | [] => [x]
  | y :: rest =>
      if ranks_before decls x y then x :: y :: rest
      else y :: insert_ranked decls x rest
  end.

(** Modelled from the spec: the attributions in ranked order. *)
Definition rank (decls : list FeatureDecl) (l : list (string * Q)) : list (string * Q) :=
  foldr (insert_ranked decls) [] l.

(** Modelled from the spec: an attribution as it appears in the result. *)
Definition factor_of (a : string * Q) : Factor :=
  {| feature := fst a;
     contribution := snd a;
     direction := if Qle_bool (snd a) 0 then Lowers else Raises |}.

(** Modelled from the spec: the top-K attributions of section 4.3. *)
Definition top_attributions (b : ArtifactBundle) (v : gmap string Q) : list Factor :=
  map factor_of (take (top_k b) (rank (features b) (explainer b v))).

(** Modelled from the spec: [score(bundle, featureVector)] of section 4.3.
    Validation comes first; only a valid vector reaches the scorer and the
    explainer. Nothing is written to [durable]. *)
Definition score (b : ArtifactBundle) (v : gmap string Q) (w : World)
    : Result PredictionResult * World :=
  match validate b v with
  | Some e => (Err e, w)
  | None =>
      let p := scorer b v in
      (Ok {| prediction := if Qle_bool (threshold b) p then 1%Z else 0%Z;
             probability := p;
             confidence := confidence_level p;
             top_factors := top_attributions b v |},
       invoke (ExplainerCall v) (invoke (ScorerCall v) w))
  end.

(** Modelled from the spec: whether two vectors read differently at a
    declared feature (section 4.4, "original[f] ≠ modified[f]"). *)
Definition differs (x y : gmap string Q) (f : FeatureDecl) : bool :=
  match x !! fname f, y !! fname f with
  | Some a, Some c => negb (Qeq_bool a c)
  | None, None => false
  | _, _ => true
  end.

(** Modelled from the spec: two vectors are equal at a declared feature,
    either both without it or both with the same number. *)
Definition same_at (x y : gmap string Q) (f : FeatureDecl) : Prop :=
  option_Forall2 Qeq (x !! fname f) (y !! fname f).

(** Modelled from the spec: the read of a declared feature; the key is
    present once the vector has passed validation. *)
Definition value (v : gmap string Q) (f : FeatureDecl) : Q := default 0%Q (v !! fname f).

Section Comparison.

(** The wording of one change, "describing old→new value": the
    specification fixes what a description is about, not its text. *)
Variable describe : string → Q → Q → string.

(** Modelled from the spec: [key_changes] of section 4.4, "one string per
    feature where original[f] ≠ modified[f], in feature-declaration
    order". *)
Definition changes (b : ArtifactBundle) (x y : gmap string Q) : list string :=
  omap (λ f, if differs x y f
             then Some (describe (fname f) (value x f) (value y f))
             else None)
       (features b).

(** Modelled from the spec: [compare(bundle, original, modified)] of section
    4.4. The no-change requirement is checked first, then both vectors go
    through [score], the only scoring path. *)
Definition compare (b : ArtifactBundle) (x y : gmap string Q) (w : World)
    : Result ComparisonResult * World :=
  if negb (existsb (differs x y) (features b)) then (Err NoChangeError, w)
  else
    match score b x w with
    | (Err e, w1) => (Err e, w1)
    | (Ok ro, w1) =>
        match score b y w1 with
        | (Err e, w2) => (Err e, w2)
        | (Ok rm, w2) =>
            (Ok {| original := ro;
                   modified := rm;
                   probability_change := probability rm - probability ro;
                   key_changes := changes b x y |},
             w2)
        end
    end.

End Comparison.

End Engine.

(** ** components/HistoryPanel *)

Module HistoryPanel.

(** The panel renders nothing for an empty history. *)
Definition rendered (history : list UseLocalHistory.Entry) : bool :=
  negb (Nat.eqb (length history) 0).

(** The figure in the header: the whole history is counted. *)
Definition count (history : list UseLocalHistory.Entry) : nat := length history.

(** The rows listed when the panel is expanded: the first ten entries. *)
Definition rows (isExpanded : bool) (history : list UseLocalHistory.Entry)
    : list UseLocalHistory.Entry :=
  if isExpanded then take 10 history else [].

Definition getRiskColor (prediction : Z) (probability : Q) : string :=
  if Z.eqb prediction 0 then "low-risk"
  else if Qle_bool (7 # 10) probability then "high-risk"
  else "medium-risk".

(** The text of a row's badge and the figure next to it. *)
Definition riskLabel (entry : UseLocalHistory.Entry) : string :=
  if Z.eqb (UseLocalHistory.prediction entry) 0 then "Low Risk" else "Elevated Risk".

Definition rowPercent (entry : UseLocalHistory.Entry) : Z :=
  Js.round (UseLocalHistory.probability entry * 100).

End HistoryPanel.

(** ** components/RiskChart *)

Module RiskChart.

(** The default of the [populationAverage] prop. *)
Definition defaultPopulationAverage : Q := 15 # 100.

Definition userRisk (probability : Q) : Z := Js.round (probability * 100).
Definition avgRisk (populationAverage : Q) : Z := Js.round (populationAverage * 100).

(** The colour of the user's bar. *)
Definition fill (probability populationAverage : Q) : string :=
  if Z.ltb (avgRisk populationAverage) (userRisk probability) then "#ef4444" else "#10b981".

(** The caption: the difference shown, and the word after it. *)
Definition captionDifference (probability populationAverage : Q) : Z :=
  if Z.ltb (avgRisk populationAverage) (userRisk probability)
  then userRisk probability - avgRisk populationAverage
  else avgRisk populationAverage - userRisk probability.

Definition captionWord (probability populationAverage : Q) : string :=
  if Z.ltb (avgRisk populationAverage) (userRisk probability) then "higher" else "lower".

End RiskChart.

(** ** api/client *)

Module ApiClient.

Definition API_BASE : string := "http://localhost:8000/api/v1".

(** The body of a response that is not [ok], as [apiRequest] reads it:
    text that is not JSON, the JSON value [null], or any other JSON value
    with what its [detail] key gives. [Some text] is a truthy [detail]
    whose string form is [text]; [None] is a missing or falsy one. *)
Inductive ErrorBody : Type :=
  | NotJson
  | Null
  | Value (detail : option string).

(** What [fetch] gives: a thrown error, a response that is [ok] with its
    body parsed as the expected data ([None]: the body is not JSON), or a
    response that is not [ok]. *)
Inductive Fetched (A : Type) : Type :=
  | Threw (message : string)
  | Ok (data : option A)
  | Failed (status : nat) (body : ErrorBody).

Arguments Threw {A} message.
Arguments Ok {A} data.
Arguments Failed {A} status body.

Section Request.

(** The texts the engine gives the [SyntaxError] of parsing a body that is
    not JSON and the [TypeError] of reading a key off [null]. *)
Variable syntaxErrorMessage : string.
Variable typeErrorMessage : string.

(** [apiRequest], from the awaited [fetch] on. *)
Definition apiRequest {A : Type} (fetched : Fetched A) : Api.Outcome A :=
  match fetched with
  | Threw message => Api.Rejected message
  | Ok (Some data) => Api.Resolved data
  | Ok None => Api.Rejected syntaxErrorMessage
  | Failed status NotJson => Api.Rejected ("API Error: " +:+ pretty status)
  | Failed status Null => Api.Rejected typeErrorMessage
  | Failed status (Value (Some text)) => Api.Rejected text
  | Failed status (Value None) => Api.Rejected ("API Error: " +:+ pretty status)
  end.

End Request.

End ApiClient.

(** ** The panels of the diabetes page *)

Module DiabetesPanels.

Import DiabetesPredictor.

(** [diabetesHistory], computed at each render. *)
Definition diabetesHistory (st : State) : list UseLocalHistory.Entry :=
  UseLocalHistory.getHistoryByDisease "diabetes" (hook st).

(** The history panel is mounted while there is diabetes history and no
    result on screen. *)
Definition historyPanelShown (st : State) : bool :=
  negb (Nat.eqb (length (diabetesHistory st)) 0)
  && match result st with Some _ => false | None => true end.

Definition withHook (h : UseLocalHistory.Hook) (st : State) : State :=
  {| formData := formData st; errors := errors st; loading := loading st;
     result := result st; apiError := apiError st; showWhatIf := showWhatIf st;
     hook := h; requests := requests st |}.

(** The panel's two callbacks as the page wires them. *)
Definition onDeleteEntry (i : Z) (st : State) : State :=
  withHook (UseLocalHistory.deleteEntry i (hook st)) st.

Definition onClearAll (st : State) : State :=
  withHook (UseLocalHistory.clearDiseaseHistory "diabetes" (hook st)) st.

(** The button that shows and hides the what-if panel, and whether the
    panel is mounted. *)
Definition toggleWhatIf (st : State) : State :=
  {| formData := formData st; errors := errors st; loading := loading st;
     result := result st; apiError := apiError st; showWhatIf := negb (showWhatIf st);
     hook := hook st; requests := requests st |}.

Definition whatIfShown (st : State) : bool :=
  match result st with Some _ => showWhatIf st | None => false end.

(** What the page's [return] mounts under its header: the form, with the
    API error in an alert when there is one ([apiError &&], so not for an
    empty text), or the result components, with the [result.result] they
    are handed. *)
Inductive View : Type :=
  | ShowsForm (alert : option string)
  | ShowsResults (prediction : Api.Prediction).

(** The page's [return]. With a result in the state the second branch is
    taken, and it reads [result.result.probability] for the risk chart: on a
    response without [result] that is a [TypeError], thrown by the render
    itself ([None]). *)
Definition render (st : State) : option View :=
  match result st with
  | None =>
      Some (ShowsForm (match apiError st with
                       | Some text => if String.eqb text "" then None else Some text
                       | None => None
                       end))
  | Some response =>
      match Api.result response with
      | Some prediction => Some (ShowsResults prediction)
      | None => None
      end
  end.

End DiabetesPanels.

(** ** Sequences of calls on the history hook *)

Module HookCalls.

Import UseLocalHistory.

(** One call on what the hook returns. *)
Inductive Call : Type :=
  | AddToHistory (now : Z) (iso disease : string) (inputs : gmap string Js.value)
                 (result : Api.Response)
  | ClearHistory
  | ClearDiseaseHistory (disease : string)
  | DeleteEntry (i : Z).

(** The hook after the call; a call that throws leaves it as it was. *)
Definition call (c : Call) (h : Hook) : Hook :=
  match c with
  | AddToHistory now iso d inputs result =>
      match addToHistory now iso d inputs result h with
      | Some (_, h') => h'
      | None => h
      end
  | ClearHistory => clearHistory h
  | ClearDiseaseHistory d => clearDiseaseHistory d h
  | DeleteEntry i => deleteEntry i h
  end.

(** Calls made one after the other, each on the state the previous one
    left. *)
Definition calls (cs : list Call) (h : Hook) : Hook :=
  foldl (λ h c, call c h) h cs.

End HookCalls.

(** ** Sample data for the examples *)

Module Sample.

(** A response as the diabetes endpoint gives it for a high-risk case. *)
Definition prediction82 : Api.Prediction :=
  {| Api.prediction := 1; Api.probability := 82 # 100; Api.confidence_level := "HIGH" |}.

Definition response82 : Api.Response :=
  {| Api.result := Some prediction82; Api.warnings := [] |}.

(** A filled-in diabetes form. *)
Definition formData : gmap string string :=
  list_to_map [
    ("pregnancies", "2"); ("glucose", "148"); ("blood_pressure", "72");
    ("skin_thickness", "35"); ("insulin", "0"); ("bmi", "33.6");
    ("diabetes_pedigree", "0.627"); ("age", "50")
  ].

(** The glucose row of the diabetes form. *)
Definition glucose : Form.Field :=
  {| Form.name := "glucose"; Form.label := "Plasma Glucose"; Form.type := "number";
     Form.min := 40; Form.max := 300; Form.step := 1 |}.

(** The cholesterol row of the heart form, and a heart page whose form is
    empty. *)
Definition cholesterol : HeartPredictor.Field :=
  {| HeartPredictor.name := "cholesterol"; HeartPredictor.label := "Cholesterol";
     HeartPredictor.type := "number" |}.

Definition heartPage : HeartPredictor.State :=
  {| HeartPredictor.formData := ∅;
     HeartPredictor.errors := ∅;
     HeartPredictor.loading := false;
     HeartPredictor.result := None;
     HeartPredictor.apiError := None;
     HeartPredictor.requests := [] |}.

(** The same form with the glucose field left empty. *)
Definition formDataNoGlucose : gmap string string := delete "glucose" formData.

Definition emptyStorage : UseLocalHistory.Storage :=
  {| UseLocalHistory.items := ∅; UseLocalHistory.full := false;
     UseLocalHistory.later := [] |}.

Definition emptyHook : UseLocalHistory.Hook :=
  {| UseLocalHistory.history := []; UseLocalHistory.localStorage := emptyStorage |}.

Definition oldEntry (i : nat) : UseLocalHistory.Entry :=
  {| UseLocalHistory.id := Z.of_nat i;
     UseLocalHistory.timestamp := "2024-01-28T10:00:00.000Z";
     UseLocalHistory.disease := "diabetes";
     UseLocalHistory.inputs := ∅;
     UseLocalHistory.prediction := 0;
     UseLocalHistory.probability := 1 # 4;
     UseLocalHistory.confidenceLevel := "MEDIUM" |}.

(** A hook whose history already holds fifty entries. *)
Definition fullHook : UseLocalHistory.Hook :=
  {| UseLocalHistory.history := map oldEntry (seq 0 50);
     UseLocalHistory.localStorage :=
       {| UseLocalHistory.items :=
            {[ UseLocalHistory.STORAGE_KEY := map oldEntry (seq 0 50) ]};
          UseLocalHistory.full := false;
          UseLocalHistory.later := [] |} |}.

(** The page right before the form is submitted, with an empty history. *)
Definition page (fd : gmap string string) : DiabetesPredictor.State :=
  {| DiabetesPredictor.formData := fd;
     DiabetesPredictor.errors := ∅;
     DiabetesPredictor.loading := false;
     DiabetesPredictor.result := None;
     DiabetesPredictor.apiError := None;
     DiabetesPredictor.showWhatIf := false;
     DiabetesPredictor.hook := emptyHook;
     DiabetesPredictor.requests := [] |}.

(** A backend that answers every request with [response82], and one that is
    down. *)
Definition predict82 (body : gmap string Js.number) : Api.Outcome Api.Response :=
  Api.Resolved response82.

Definition predictDown (body : gmap string Js.number) : Api.Outcome Api.Response :=
  Api.Rejected "API Error: 500".

Definition typeErrorMessage : string :=
  "Cannot read properties of undefined (reading 'prediction')".

Definition now : Z := 1706436000000.
Definition iso : string := "2024-01-28T10:00:00.000Z".

(** The page after the filled-in form has been submitted and answered. *)
Definition submitted : DiabetesPredictor.State :=
  DiabetesPredictor.handleSubmit Decimal.parseDecimal predict82 typeErrorMessage
    now iso (page formData).

(** The what-if panel over two values, [{a: 1, b: 1}], and a backend that
    answers every what-if request with a comparison. *)
Definition values11 : gmap string Js.number :=
  list_to_map [("a", Js.Num 1); ("b", Js.Num 1)].

Definition comparison0 : Api.Comparison :=
  {| Api.original_prediction := prediction82;
     Api.modified_prediction := prediction82;
     Api.probability_change := 0;
     Api.key_changes := [] |}.

Definition whatIf0 (original modified : gmap string Js.number)
    : Api.Outcome Api.Comparison :=
  Api.Resolved comparison0.

(** A two-feature bundle: features [a] and [b], both bounded by [0, 1],
    threshold 0.5, and a scorer that gives 0.82 on [{a: 1, b: 1}]. *)
Definition feature_a : Engine.FeatureDecl :=
  {| Engine.fname := "a"; Engine.flabel := "Feature A"; Engine.bounds := Some (0%Q, 1%Q) |}.

Definition feature_b : Engine.FeatureDecl :=
  {| Engine.fname := "b"; Engine.flabel := "Feature B"; Engine.bounds := Some (0%Q, 1%Q) |}.

Definition bundle_ab : Engine.ArtifactBundle :=
  {| Engine.domain := "demo";
     Engine.version := "v1";
     Engine.scorer := λ v, ((41 # 100) * default 0 (v !! "a") + (41 # 100) * default 0 (v !! "b"))%Q;
     Engine.explainer := λ v, [("a", ((41 # 100) * default 0 (v !! "a"))%Q);
                               ("b", ((41 # 100) * default 0 (v !! "b"))%Q)];
     Engine.features := [feature_a; feature_b];
     Engine.threshold_cfg := Some (1 # 2);
     Engine.top_k_cfg := None;
     Engine.metrics := [("roc_auc", 85 # 100)];
     Engine.calibrated := true |}.

Definition vector11 : gmap string Q := list_to_map [("a", 1%Q); ("b", 1%Q)].
Definition vector01 : gmap string Q := list_to_map [("a", 0%Q); ("b", 1%Q)].
Definition vectorOnlyA : gmap string Q := list_to_map [("a", 1%Q)].

Definition world0 : Engine.World := {| Engine.calls := []; Engine.durable := [] |}.

(** A plain wording of a change, naming the feature only. *)
Definition describe (f : string) (old new : Q) : string := f ++ " changed".

(** A few calls on the hook, one after the other. *)
Definition someCalls : list HookCalls.Call :=
  [HookCalls.AddToHistory now iso "diabetes" ∅ response82;
   HookCalls.DeleteEntry 3;
   HookCalls.ClearDiseaseHistory "heart"].

(** The diabetes form with a body mass index far out of range. *)
Definition bmi : Form.Field :=
  {| Form.name := "bmi"; Form.label := "Body Mass Index (BMI)"; Form.type := "number";
     Form.min := 10; Form.max := 70; Form.step := 1 # 10 |}.

Definition formDataBadBmi : gmap string string := <["bmi" := "200"]> formData.



(** A server that refuses every request with status 422 and no detail. *)
Definition server422 (body : gmap string Js.number) : ApiClient.Fetched Api.Response :=
  ApiClient.Failed 422 (ApiClient.Value None).

(** The hook with fifty entries on a storage that takes the next three
    writes and refuses the fourth. *)
Definition fillingHook : UseLocalHistory.Hook :=
  {| UseLocalHistory.history := UseLocalHistory.history fullHook;
     UseLocalHistory.localStorage :=
       {| UseLocalHistory.items :=
            UseLocalHistory.items (UseLocalHistory.localStorage fullHook);
          UseLocalHistory.full := false;
          UseLocalHistory.later := [false; false; true] |} |}.

(** An entry whose inputs hold a [NaN]. *)
Definition nanEntry : UseLocalHistory.Entry :=
  {| UseLocalHistory.id := 7;
     UseLocalHistory.timestamp := "2024-01-28T10:00:00.000Z";
     UseLocalHistory.disease := "heart";
     UseLocalHistory.inputs :=
       {[ "cholesterol" := Js.Number Js.NaN; "age" := Js.Number (Js.Num 50) ]};
     UseLocalHistory.prediction := 1;
     UseLocalHistory.probability := 3 # 4;
     UseLocalHistory.confidenceLevel := "MEDIUM" |}.

Definition syntaxErrorMessage : string := "Unexpected token < in JSON at position 0".

(** Original values one of which is not a number. *)
Definition valuesNaN : gmap string Js.number :=
  list_to_map [("a", Js.NaN); ("b", Js.Num 1)].

(** A field named [a], as the what-if panel would be handed it. *)
Definition field_a : Form.Field :=
  {| Form.name := "a"; Form.label := "A"; Form.type := "number";
     Form.min := 0; Form.max := 10; Form.step := 1 |}.

(** A heart form with every field filled in; the cholesterol is not a
    number. *)
Definition heartFormData : gmap string string :=
  list_to_map [
    ("age", "55"); ("sex", "1"); ("chest_pain_type", "2"); ("resting_bp", "130");
    ("cholesterol", "high"); ("fasting_blood_sugar", "0"); ("resting_ecg", "1");
    ("max_heart_rate", "150"); ("exercise_angina", "0"); ("st_depression", "1.0");
    ("st_slope", "1"); ("num_vessels", "0"); ("thalassemia", "2")
  ].

Definition heartPageFilled : HeartPredictor.State :=
  {| HeartPredictor.formData := heartFormData;
     HeartPredictor.errors := ∅;
     HeartPredictor.loading := false;
     HeartPredictor.result := None;
     HeartPredictor.apiError := None;
     HeartPredictor.requests := [] |}.

End Sample.

(** * Properties *)

(** ** The local history *)

Module LocalHistoryFacts.

Import UseLocalHistory.

Lemma saveHistory_history (l : list Entry) (h : Hook) :
  history (saveHistory l h) = l.
Proof. reflexivity. Qed.

(** A write either lands under the hook's key or, when the browser refuses
    it, leaves the history stored there as it was. *)
Lemma saveHistory_stored (l : list Entry) (h : Hook) :
  stored (saveHistory l h) = if full (localStorage h) then stored h else Some l.
Proof.
  unfold stored, saveHistory, setItem, getItem; simpl.
  destruct (full (localStorage h)); simpl; [done|].
  apply lookup_insert_eq.
Qed.

(** Other keys of the storage are never touched. *)
Lemma saveHistory_other_keys (l : list Entry) (h : Hook) (k : string) :
  k ≠ STORAGE_KEY →
  getItem k (localStorage (saveHistory l h)) = getItem k (localStorage h).
Proof.
  intros Hk. unfold saveHistory, setItem, getItem; simpl.
  destruct (full (localStorage h)); simpl; [done|].
  by apply lookup_insert_ne.
Qed.

Lemma length_take_cap (l : list Entry) : (length (take MAX_HISTORY l) ≤ MAX_HISTORY)%nat.
Proof. rewrite length_take. lia. Qed.

(** Removing entries never lengthens the history. *)
Lemma deleteEntry_length (i : Z) (h : Hook) :
  (length (history (deleteEntry i h)) ≤ length (history h))%nat.
Proof. unfold deleteEntry. rewrite saveHistory_history. apply length_filter. Qed.

Lemma clearDiseaseHistory_length (d : string) (h : Hook) :
  (length (history (clearDiseaseHistory d h)) ≤ length (history h))%nat.
Proof. unfold clearDiseaseHistory. rewrite saveHistory_history. apply length_filter. Qed.

Lemma clearDiseaseHistory_none_left (d : string) (h : Hook) :
  getHistoryByDisease d (clearDiseaseHistory d h) = [].
Proof.
  unfold getHistoryByDisease, clearDiseaseHistory. rewrite saveHistory_history.
  induction (history h) as [|e l IH]; [done|].
  rewrite filter_cons. case_decide as Hd; [|done].
  rewrite filter_cons. by case_decide.
Qed.

(** A body without a result makes [addToHistory] throw before anything is
    saved. *)
Lemma addToHistory_throws (now : Z) (iso d : string) (inputs : gmap string Js.value)
    (result : Api.Response) (h : Hook) :
  Api.result result = None ↔ addToHistory now iso d inputs result h = None.
Proof. unfold addToHistory. by destruct (Api.result result). Qed.

(** What was saved is what the next mount loads, as [JSON.parse] reads
    it. *)
Lemma mount_after_save (l : list Entry) (h : Hook) :
  full (localStorage h) = false →
  history (mount (localStorage (saveHistory l h))) = parse l.
Proof.
  intros Hf. unfold mount, loadHistory. cbn [localStorage].
  pose proof (saveHistory_stored l h) as E. rewrite Hf in E. unfold stored in E.
  by rewrite E.
Qed.

(** C10: a call to [addToHistory] on a well-formed response succeeds; the
    history afterwards is the new entry followed by the previous history, cut
    to [MAX_HISTORY] = 50 entries: it has at most 50 entries, the new entry
    is at its front, and what was cut is a tail of the previous history. The
    copy in [localStorage] is either this new history or, when the write
    failed, the copy that was there, so a bound of 50 on it is kept too. *)
Theorem addToHistory_cap (now : Z) (iso d : string) (inputs : gmap string Js.value)
    (result : Api.Response) (r : Api.Prediction) (h : Hook) :
  Api.result result = Some r →
  ∃ entry h',
    addToHistory now iso d inputs result h = Some (entry, h')
    ∧ entry = {| id := now; timestamp := iso; disease := d; inputs := inputs;
                 prediction := Api.prediction r; probability := Api.probability r;
                 confidenceLevel := Api.confidence_level r |}
    ∧ (length (history h') ≤ MAX_HISTORY)%nat
    ∧ MAX_HISTORY = 50%nat
    ∧ head (history h') = Some entry
    ∧ history h' = take MAX_HISTORY (entry :: history h)
    ∧ (∃ dropped, entry :: history h = history h' ++ dropped
                  ∧ length dropped = (S (length (history h)) - MAX_HISTORY)%nat)
    ∧ (stored h' = Some (history h') ∨ stored h' = stored h)
    ∧ ((∀ l, stored h = Some l → (length l ≤ MAX_HISTORY)%nat) →
       ∀ l, stored h' = Some l → (length l ≤ MAX_HISTORY)%nat).
Proof.
  intros Hr. unfold addToHistory. rewrite Hr.
  eexists _, _. split; [reflexivity|]. split; [reflexivity|].
  rewrite saveHistory_history. split; [apply length_take_cap|].
  split; [reflexivity|]. split; [reflexivity|]. split; [reflexivity|].
  split.
  { eexists (drop MAX_HISTORY (_ :: history h)). split.
    - by rewrite take_drop.
    - rewrite length_drop. reflexivity. }
  rewrite saveHistory_stored. split.
  - destruct (full (localStorage h)); auto.
  - intros Hinv l. destruct (full (localStorage h)); [apply Hinv|].
    intros [= <-]. apply (length_take_cap (_ :: history h)).
Qed.

End LocalHistoryFacts.

(** ** The result widgets *)

Module WidgetFacts.

Local Open Scope Q_scope.

(** X29: the bar never leaves the track: a probability between 0 and 1
    gives a percentage between 0 and 100. *)
Lemma percentage_bounds (p : Q) :
  0 <= p → p <= 1 → (0 ≤ ConfidenceMeter.percentage p ≤ 100)%Z.
Proof.
  intros H0 H1. unfold ConfidenceMeter.percentage, Js.round. split.
  - change 0%Z with (Qfloor 0). apply Qfloor_resp_le. nra.
  - assert (Qfloor (p * 100 + (1 # 2)) <= Qfloor (100 + (1 # 2)))%Z as H
      by (apply Qfloor_resp_le; nra).
    exact H.
Qed.

(** The bar is drawn as [low] for every level that is neither HIGH nor
    MEDIUM, and only a HIGH level looks at the prediction. *)
Lemma barClass_cases (level : string) (prediction : Z) :
  ConfidenceMeter.barClass level prediction =
    if decide (level = "HIGH") then
      if decide (prediction = 1%Z) then "high-risk" else "high-safe"
    else if decide (level = "MEDIUM") then "medium" else "low".
Proof.
  unfold ConfidenceMeter.barClass.
  destruct (String.eqb_spec level "HIGH") as [->|Hh].
  - rewrite decide_True by done.
    destruct (Z.eqb_spec prediction 1) as [->|Hp].
    + by rewrite decide_True.
    + by rewrite decide_False.
  - rewrite decide_False by done.
    destruct (String.eqb_spec level "MEDIUM") as [->|Hm].
    + by rewrite decide_True.
    + by rewrite decide_False.
Qed.

End WidgetFacts.

(** ** The engine *)

Module EngineFacts.

Import Engine.

Local Open Scope Q_scope.

(** *** Confidence levels *)

(** The level depends on the distance from one half only. *)
Lemma confidence_level_dist (p q : Q) :
  Qabs (p - (1 # 2)) == Qabs (q - (1 # 2)) → confidence_level p = confidence_level q.
Proof.
  intros H. unfold confidence_level. cbv zeta.
  rewrite (Qleb_comp _ _ H _ _ (Qeq_refl (1 # 10))).
  rewrite (Qleb_comp _ _ (Qeq_refl (3 # 10)) _ _ H).
  reflexivity.
Qed.

Lemma confidence_level_low (p : Q) :
  confidence_level p = LOW ↔ Qabs (p - (1 # 2)) <= 1 # 10.
Proof.
  unfold confidence_level. cbv zeta.
  destruct (Qle_bool (Qabs (p - (1 # 2))) (1 # 10)) eqn:E1.
  - apply Qle_bool_iff in E1. tauto.
  - assert (¬ Qabs (p - (1 # 2)) <= 1 # 10) as N1
      by (rewrite <- Qle_bool_iff; congruence).
    destruct (Qle_bool (3 # 10) (Qabs (p - (1 # 2)))); split; (discriminate || tauto).
Qed.

Lemma confidence_level_high (p : Q) :
  confidence_level p = HIGH ↔ 3 # 10 <= Qabs (p - (1 # 2)).
Proof.
  unfold confidence_level. cbv zeta.
  destruct (Qle_bool (Qabs (p - (1 # 2))) (1 # 10)) eqn:E1.
  - apply Qle_bool_iff in E1. split; [discriminate|]. intros H. lra.
  - destruct (Qle_bool (3 # 10) (Qabs (p - (1 # 2)))) eqn:E2.
    + apply Qle_bool_iff in E2. tauto.
    + assert (¬ 3 # 10 <= Qabs (p - (1 # 2))) as N2
        by (rewrite <- Qle_bool_iff; congruence).
      split; (discriminate || tauto).
Qed.

Lemma confidence_level_medium (p : Q) :
  confidence_level p = MEDIUM ↔ 1 # 10 < Qabs (p - (1 # 2)) ∧ Qabs (p - (1 # 2)) < 3 # 10.
Proof.
  pose proof (confidence_level_low p) as HL.
  pose proof (confidence_level_high p) as HH.
  destruct (confidence_level p); split; intros H; try discriminate; try reflexivity.
  - assert (Qabs (p - (1 # 2)) <= 1 # 10) by (apply HL; reflexivity). lra.
  - split; apply Qnot_le_lt; intros N; [apply HL in N|apply HH in N]; discriminate.
  - assert (3 # 10 <= Qabs (p - (1 # 2))) by (apply HH; reflexivity). lra.
Qed.

(** C1: for a probability [p] between 0 and 1 the level is LOW exactly when
    |p - 0.5| <= 0.1, HIGH exactly when |p - 0.5| >= 0.3, and MEDIUM exactly
    in between; 0.4 and 0.6 are LOW, 0.2 and 0.8 are HIGH; and [p] and its
    mirror image [1 - p] on the other side of 0.5 get the same level. *)
Theorem confidence_level_bands (p : Q) :
  0 <= p ∧ p <= 1 →
  (confidence_level p = LOW ↔ Qabs (p - (1 # 2)) <= 1 # 10)
  ∧ (confidence_level p = HIGH ↔ 3 # 10 <= Qabs (p - (1 # 2)))
  ∧ (confidence_level p = MEDIUM ↔
       ¬ Qabs (p - (1 # 2)) <= 1 # 10 ∧ ¬ 3 # 10 <= Qabs (p - (1 # 2)))
  ∧ confidence_level (4 # 10) = LOW
  ∧ confidence_level (6 # 10) = LOW
  ∧ confidence_level (2 # 10) = HIGH
  ∧ confidence_level (8 # 10) = HIGH
  ∧ confidence_level (1 - p) = confidence_level p.
Proof.
  intros _.
  split; [apply confidence_level_low|].
  split; [apply confidence_level_high|].
  split.
  { rewrite confidence_level_medium. split; intros [H1 H2]; split.
    - by apply Qlt_not_le.
    - by apply Qlt_not_le.
    - by apply Qnot_le_lt.
    - by apply Qnot_le_lt. }
  do 4 (split; [reflexivity|]).
  apply confidence_level_dist.
  assert (1 - p - (1 # 2) == - (p - (1 # 2))) as E by ring.
  rewrite E. apply Qabs_opp.
Qed.

(** *** Validation and scoring *)

Lemma existsb_elem_of {A : Type} (f : A → bool) (l : list A) :
  existsb f l = true ↔ ∃ x, x ∈ l ∧ f x = true.
Proof.
  rewrite existsb_exists. split; intros (x & Hx & Hf); exists x; split; auto;
    by apply list_elem_of_In.
Qed.

Lemma existsb_none {A : Type} (f : A → bool) (l : list A) :
  existsb f l = false ↔ ∀ x, x ∈ l → f x = false.
Proof.
  split.
  - intros H x Hx. destruct (f x) eqn:E; [|done].
    assert (existsb f l = true) by (apply existsb_elem_of; eauto). congruence.
  - intros H. destruct (existsb f l) eqn:E; [|done].
    apply existsb_elem_of in E as (x & Hx & Hf). rewrite H in Hf; done.
Qed.

Lemma validate_missing (b : ArtifactBundle) (v : gmap string Q) :
  (∃ f, f ∈ features b ∧ v !! fname f = None) → validate b v = Some SchemaMismatch.
Proof.
  intros (f & Hf & Hv). unfold validate.
  assert (existsb (is_missing v) (features b) = true) as ->; [|done].
  apply existsb_elem_of. exists f. split; [done|]. unfold is_missing. by rewrite Hv.
Qed.

(** A vector that passes validation holds every declared feature, within
    its bounds where bounds are declared. *)
Lemma validate_ok (b : ArtifactBundle) (v : gmap string Q) :
  validate b v = None →
  ∀ f, f ∈ features b →
    ∃ x, v !! fname f = Some x
         ∧ ∀ lo hi, bounds f = Some (lo, hi) → lo <= x ∧ x <= hi.
Proof.
  unfold validate. intros H f Hf.
  destruct (existsb (is_missing v) (features b)) eqn:E1; [done|].
  destruct (existsb (out_of_bounds v) (features b)) eqn:E2; [done|].
  pose proof (proj1 (existsb_none _ _) E1 f Hf) as M.
  pose proof (proj1 (existsb_none _ _) E2 f Hf) as O.
  unfold is_missing in M. unfold out_of_bounds in O.
  destruct (v !! fname f) as [x|]; [|done].
  exists x. split; [done|]. intros lo hi Hb. rewrite Hb in O.
  apply orb_false_elim in O as [O1 O2].
  apply negb_false_iff in O1, O2. by split; apply Qle_bool_iff.
Qed.

Lemma validate_value (b : ArtifactBundle) (v : gmap string Q) (f : FeatureDecl) :
  validate b v = None → f ∈ features b → v !! fname f = Some (value v f).
Proof.
  intros H Hf. destruct (validate_ok b v H f Hf) as (x & Hx & _).
  unfold value. by rewrite Hx.
Qed.

(** The equation of [score] on a valid vector. *)
Lemma score_valid (b : ArtifactBundle) (v : gmap string Q) (w : World) :
  validate b v = None →
  score b v w =
    (Ok {| prediction := if Qle_bool (threshold b) (scorer b v) then 1%Z else 0%Z;
           probability := scorer b v;
           confidence := confidence_level (scorer b v);
           top_factors := top_attributions b v |},
     invoke (ExplainerCall v) (invoke (ScorerCall v) w)).
Proof. intros H. unfold score. by rewrite H. Qed.

(** The equation of [score] on an invalid vector: the error, and the world
    as it was. *)
Lemma score_invalid (b : ArtifactBundle) (v : gmap string Q) (w : World) (e : EngineError) :
  validate b v = Some e → score b v w = (Err e, w).
Proof. intros H. unfold score. by rewrite H. Qed.

(** Scoring a valid vector does reach the scorer, once. *)
Lemma score_valid_calls (b : ArtifactBundle) (v : gmap string Q) (w : World) :
  validate b v = None →
  calls (snd (score b v w)) = calls w ++ [ScorerCall v; ExplainerCall v].
Proof.
  intros H. rewrite (score_valid b v w H). simpl. by rewrite <- app_assoc.
Qed.

(** Scoring never writes to durable storage. *)
Lemma score_durable (b : ArtifactBundle) (v : gmap string Q) (w : World) :
  durable (snd (score b v w)) = durable w.
Proof. unfold score. by destruct (validate b v). Qed.

(** At most [top_k] attributions are returned. *)
Lemma top_attributions_length (b : ArtifactBundle) (v : gmap string Q) :
  (length (top_attributions b v) ≤ top_k b)%nat.
Proof. unfold top_attributions. rewrite length_map, length_take. lia. Qed.

(** When a declared feature is missing from the vector, [score] fails with
    SchemaMismatch and the world is as before the call: no invocation of the
    scorer (or of the explainer) has been added. *)
Lemma score_schema_mismatch (b : ArtifactBundle) (v : gmap string Q) (w : World) :
  (∃ f, f ∈ features b ∧ v !! fname f = None) →
  score b v w = (Err SchemaMismatch, w)
  ∧ calls (snd (score b v w)) = calls w
  ∧ ∀ u, ScorerCall u ∈ calls (snd (score b v w)) → ScorerCall u ∈ calls w.
Proof.
  intros H. pose proof (score_invalid b v w _ (validate_missing b v H)) as E.
  rewrite E. by repeat split.
Qed.

(** *** Comparison *)

Lemma differs_false (x y : gmap string Q) (f : FeatureDecl) :
  differs x y f = false ↔ same_at x y f.
Proof.
  unfold differs, same_at.
  destruct (x !! fname f) as [a|], (y !! fname f) as [c|]; split; intros H;
    try discriminate; try (by inversion H); try constructor.
  - apply negb_false_iff in H. by apply Qeq_bool_iff.
  - inversion H; subst. apply negb_false_iff. by apply Qeq_bool_iff.
Qed.

Lemma differs_true (x y : gmap string Q) (f : FeatureDecl) :
  differs x y f = true ↔ ¬ same_at x y f.
Proof.
  rewrite <- differs_false. destruct (differs x y f); split; (done || congruence).
Qed.

(** On two valid vectors, differing at a feature is differing in value. *)
Lemma differs_value (b : ArtifactBundle) (x y : gmap string Q) (f : FeatureDecl) :
  validate b x = None → validate b y = None → f ∈ features b →
  (differs x y f = true ↔ ¬ value x f == value y f).
Proof.
  intros Hx Hy Hf. unfold differs.
  rewrite (validate_value b x f Hx Hf), (validate_value b y f Hy Hf).
  rewrite negb_true_iff. rewrite <- Qeq_bool_iff.
  destruct (Qeq_bool (value x f) (value y f)); split; (done || congruence).
Qed.

Section ComparisonFacts.

Variable describe : string → Q → Q → string.

Lemma compare_unchanged (b : ArtifactBundle) (x y : gmap string Q) (w : World) :
  existsb (differs x y) (features b) = false →
  compare describe b x y w = (Err NoChangeError, w).
Proof. intros H. unfold compare. by rewrite H. Qed.

(** The equation of [compare] on two valid vectors that differ. *)
Lemma compare_changed (b : ArtifactBundle) (x y : gmap string Q) (w : World) :
  existsb (differs x y) (features b) = true →
  validate b x = None → validate b y = None →
  ∃ ro rm w',
    compare describe b x y w =
      (Ok {| original := ro; modified := rm;
             probability_change := scorer b y - scorer b x;
             key_changes := changes describe b x y |}, w')
    ∧ fst (score b x w) = Ok ro
    ∧ (∀ w1, fst (score b y w1) = Ok rm)
    ∧ probability ro = scorer b x
    ∧ probability rm = scorer b y.
Proof.
  intros Hd Hx Hy. unfold compare. rewrite Hd. simpl.
  rewrite (score_valid b x w Hx).
  rewrite (score_valid b y _ Hy). simpl.
  eexists _, _, _. split; [reflexivity|]. split; [reflexivity|].
  split; [|done]. intros w1. by rewrite (score_valid b y w1 Hy).
Qed.

(** A comparison never writes to durable storage either. *)
Lemma compare_durable (b : ArtifactBundle) (x y : gmap string Q) (w : World) :
  durable (snd (compare describe b x y w)) = durable w.
Proof.
  unfold compare. destruct (existsb (differs x y) (features b)); simpl; [|done].
  pose proof (score_durable b x w) as D1.
  destruct (score b x w) as [[ro|e] w1]; simpl in *; [|done].
  pose proof (score_durable b y w1) as D2.
  destruct (score b y w1) as [[rm|e] w2]; simpl in *; congruence.
Qed.

(** The change descriptions are the descriptions of the differing features,
    taken in declaration order. *)
Lemma changes_filter (b : ArtifactBundle) (x y : gmap string Q) :
  changes describe b x y =
  map (λ f, describe (fname f) (value x f) (value y f))
      (filter (λ f, Is_true (differs x y f)) (features b)).
Proof.
  unfold changes. induction (features b) as [|f l IH]; [done|].
  rewrite filter_cons. cbn [omap list_omap]. rewrite IH.
  destruct (differs x y f); case_decide as D; simpl in D; try done.
Qed.

(** When the two vectors are equal at every declared feature, [compare]
    fails with NoChangeError, having produced no result and scored nothing;
    and whenever [compare] does return a ComparisonResult, some declared
    feature differs between the two vectors. *)
Lemma compare_no_change (b : ArtifactBundle) (x y : gmap string Q) (w : World) :
  ((∀ f, f ∈ features b → same_at x y f) →
   compare describe b x y w = (Err NoChangeError, w))
  ∧ (∀ r w', compare describe b x y w = (Ok r, w') →
     ∃ f, f ∈ features b ∧ ¬ same_at x y f).
Proof.
  split.
  - intros H. apply compare_unchanged. apply existsb_none.
    intros f Hf. apply differs_false. by apply H.
  - intros r w' Hc. unfold compare in Hc.
    destruct (existsb (differs x y) (features b)) eqn:E; simpl in Hc; [|done].
    apply existsb_elem_of in E as (f & Hf & Hd).
    exists f. split; [done|]. by apply differs_true.
Qed.

(** C4: for two valid vectors that differ at a declared feature, [compare]
    succeeds in both directions; the reported change is the modified
    probability minus the original one, these being the scorer's answers on
    the two vectors; and swapping the vectors negates the change. *)
Theorem compare_antisymmetric (b : ArtifactBundle) (x y : gmap string Q) (w w' : World) :
  validate b x = None → validate b y = None →
  (∃ f, f ∈ features b ∧ ¬ same_at x y f) →
  ∃ r r' w1 w2,
    compare describe b x y w = (Ok r, w1)
    ∧ compare describe b y x w' = (Ok r', w2)
    ∧ probability_change r = probability (modified r) - probability (original r)
    ∧ probability (original r) = scorer b x
    ∧ probability (modified r) = scorer b y
    ∧ probability_change r == - probability_change r'.
Proof.
  intros Hx Hy (f & Hf & Hd).
  assert (existsb (differs x y) (features b) = true) as Exy.
  { apply existsb_elem_of. exists f. split; [done|]. by apply differs_true. }
  assert (existsb (differs y x) (features b) = true) as Eyx.
  { apply existsb_elem_of. exists f. split; [done|]. apply differs_true.
    intros S. apply Hd. unfold same_at in *. inversion S; constructor.
    by symmetry. }
  destruct (compare_changed b x y w Exy Hx Hy) as (ro & rm & w1 & E1 & _ & _ & Po & Pm).
  destruct (compare_changed b y x w' Eyx Hy Hx) as (ro' & rm' & w2 & E2 & _).
  eexists _, _, _, _. split; [exact E1|]. split; [exact E2|]. simpl.
  split; [by rewrite Po, Pm|]. split; [done|]. split; [done|]. ring.
Qed.

(** C7: for two valid vectors that differ, the result's [key_changes] holds
    one description per declared feature at which the two vectors have
    different values, and no other; the descriptions come in
    feature-declaration order, and each is the description of its feature's
    old and new value. *)
Theorem compare_key_changes (b : ArtifactBundle) (x y : gmap string Q) (w : World) :
  validate b x = None → validate b y = None →
  (∃ f, f ∈ features b ∧ ¬ same_at x y f) →
  ∃ r w' changed,
    compare describe b x y w = (Ok r, w')
    ∧ changed `sublist_of` features b
    ∧ (∀ f, f ∈ changed ↔ f ∈ features b ∧ ¬ value x f == value y f)
    ∧ (∀ f, f ∈ features b →
         x !! fname f = Some (value x f) ∧ y !! fname f = Some (value y f))
    ∧ key_changes r = map (λ f, describe (fname f) (value x f) (value y f)) changed
    ∧ length (key_changes r) = length changed.
Proof.
  intros Hx Hy (f & Hf & Hd).
  assert (existsb (differs x y) (features b) = true) as Exy.
  { apply existsb_elem_of. exists f. split; [done|]. by apply differs_true. }
  destruct (compare_changed b x y w Exy Hx Hy) as (ro & rm & w1 & E1 & _).
  eexists _, _, (filter (λ f, Is_true (differs x y f)) (features b)).
  split; [exact E1|]. simpl.
  split; [apply sublist_filter|].
  split.
  { intros g. rewrite list_elem_of_filter. split.
    - intros [Hg Hin]. split; [done|].
      apply (differs_value b x y g Hx Hy Hin). by apply Is_true_true.
    - intros [Hin Hg]. split; [|done].
      apply Is_true_true. by apply (differs_value b x y g Hx Hy Hin). }
  split.
  { intros g Hg. split; by eapply validate_value. }
  split; [apply changes_filter|].
  by rewrite changes_filter, length_map.
Qed.

End ComparisonFacts.

End EngineFacts.

(** ** The diabetes page *)

Module PredictorFacts.

Import Form DiabetesPredictor.

Lemma formFields_names_nodup : NoDup (map name formFields).
Proof. apply (bool_decide_unpack _). by vm_compute. Qed.

Section Page.

Variable parseFloat : string → Js.number.
Variable predict : gmap string Js.number → Api.Outcome Api.Response.
Variable typeErrorMessage : string.

(** *** Validation *)

Lemma errors_fold_other (fd : gmap string string) (fields : list Field)
    (acc : gmap string FieldError) (k : string) :
  k ∉ map name fields →
  foldl (λ errs field,
           match checkField parseFloat fd field with
           | Some e => <[name field := e]> errs
           | None => errs
           end) acc fields !! k = acc !! k.
Proof.
  revert acc. induction fields as [|g l IH]; intros acc Hk; [done|].
  simpl in *. apply not_elem_of_cons in Hk as [Hg Hl].
  rewrite IH by done.
  destruct (checkField parseFloat fd g); [|done].
  by rewrite lookup_insert_ne.
Qed.

Lemma errors_fold_field (fd : gmap string string) (fields : list Field)
    (acc : gmap string FieldError) (f : Field) :
  NoDup (map name fields) → f ∈ fields → acc !! name f = None →
  foldl (λ errs field,
           match checkField parseFloat fd field with
           | Some e => <[name field := e]> errs
           | None => errs
           end) acc fields !! name f = checkField parseFloat fd f.
Proof.
  revert acc. induction fields as [|g l IH]; intros acc Hnd Hf Hacc.
  { by apply elem_of_nil in Hf. }
  simpl in *. apply NoDup_cons in Hnd as [Hg Hnd].
  apply elem_of_cons in Hf as [->|Hf].
  - rewrite errors_fold_other by done.
    destruct (checkField parseFloat fd g); [|done]. by rewrite lookup_insert_eq.
  - apply IH; [done|done|].
    assert (name g ≠ name f) as Hne.
    { intros E. apply Hg. rewrite E. by apply list_elem_of_fmap_2. }
    destruct (checkField parseFloat fd g); [|done]. by rewrite lookup_insert_ne.
Qed.

(** After validation, a field's error slot holds exactly what the check of
    that field found. *)
Lemma newErrors_field (fd : gmap string string) (f : Field) :
  f ∈ formFields → newErrors parseFloat fd !! name f = checkField parseFloat fd f.
Proof.
  intros Hf. unfold newErrors.
  apply errors_fold_field; [apply formFields_names_nodup|done|done].
Qed.

Lemma newErrors_other (fd : gmap string string) (k : string) :
  k ∉ map name formFields → newErrors parseFloat fd !! k = None.
Proof. intros Hk. unfold newErrors. by rewrite errors_fold_other. Qed.

(** The form validates exactly when no field has an error. *)
Lemma validateForm_true (st : State) :
  snd (validateForm parseFloat st) = true ↔
  ∀ f, f ∈ formFields → checkField parseFloat (formData st) f = None.
Proof.
  unfold validateForm. simpl. rewrite Nat.eqb_eq, map_size_empty_iff. split.
  - intros E f Hf. rewrite <- newErrors_field by done. by rewrite E.
  - intros H. apply map_eq. intros k. rewrite lookup_empty.
    destruct (decide (k ∈ map name formFields)) as [Hk|Hk].
    + apply list_elem_of_fmap in Hk as (f & -> & Hf).
      rewrite newErrors_field by done. by apply H.
    + by apply newErrors_other.
Qed.

Lemma validateForm_false (st : State) (f : Field) (e : FieldError) :
  f ∈ formFields → checkField parseFloat (formData st) f = Some e →
  snd (validateForm parseFloat st) = false.
Proof.
  intros Hf He. destruct (snd (validateForm parseFloat st)) eqn:E; [|done].
  rewrite (proj1 (validateForm_true st) E f Hf) in He. done.
Qed.

(** A field that was never filled in, or was emptied, is flagged as
    required. *)
Lemma checkField_missing (fd : gmap string string) (f : Field) :
  fd !! name f = None ∨ fd !! name f = Some "" →
  checkField parseFloat fd f = Some Required.
Proof. unfold checkField. by intros [-> | ->]. Qed.

(** A field passes the check exactly when it holds text that parses to a
    number within the field's range. *)
Lemma checkField_ok (fd : gmap string string) (f : Field) :
  checkField parseFloat fd f = None ↔
  ∃ value x, fd !! name f = Some value ∧ value ≠ ""
             ∧ parseFloat value = Js.Num x ∧ (min f <= x)%Q ∧ (x <= max f)%Q.
Proof.
  unfold checkField. destruct (fd !! name f) as [value|].
  2: { split; [done|]. by intros (? & ? & ? & _). }
  destruct (String.eqb value "") eqn:Ev.
  { apply String.eqb_eq in Ev. split; [done|]. intros (? & ? & [= <-] & ? & _). done. }
  apply String.eqb_neq in Ev.
  destruct (parseFloat value) as [|x] eqn:Ep.
  { split; [done|]. intros (? & ? & [= <-] & _ & ? & _). congruence. }
  destruct (Qle_bool (min f) x) eqn:E1, (Qle_bool x (max f)) eqn:E2; simpl.
  - split; [|done]. intros _. exists value, x.
    by repeat split; try apply Qle_bool_iff.
  - split; [done|]. intros (? & y & [= <-] & _ & Hp & _ & Hy).
    rewrite Ep in Hp. injection Hp as <-. apply Qle_bool_iff in Hy. congruence.
  - split; [done|]. intros (? & y & [= <-] & _ & Hp & Hy & _).
    rewrite Ep in Hp. injection Hp as <-. apply Qle_bool_iff in Hy. congruence.
  - split; [done|]. intros (? & y & [= <-] & _ & Hp & Hy & _).
    rewrite Ep in Hp. injection Hp as <-. apply Qle_bool_iff in Hy. congruence.
Qed.

(** *** Submission *)

(** A form that does not validate goes no further than validation. *)
Lemma handleSubmit_invalid (now : Z) (iso : string) (st : State) :
  snd (validateForm parseFloat st) = false →
  handleSubmit parseFloat predict typeErrorMessage now iso st
  = fst (validateForm parseFloat st).
Proof.
  intros H. unfold handleSubmit.
  destruct (validateForm parseFloat st) as [st1 ok]. simpl in *. by rewrite H.
Qed.

(** A form that validates is posted, whatever comes of the request. *)
Lemma handleSubmit_requests (now : Z) (iso : string) (st : State) :
  snd (validateForm parseFloat st) = true →
  requests (handleSubmit parseFloat predict typeErrorMessage now iso st)
  = requests st ++ [payload parseFloat (formData st)].
Proof.
  intros H. unfold handleSubmit.
  destruct (validateForm parseFloat st) as [st1 ok] eqn:E. simpl in H. subst ok.
  injection E as <-. simpl.
  destruct (predict _) as [response|message]; [|done].
  by destruct (UseLocalHistory.addToHistory _ _ _ _ _ _) as [[? ?]|].
Qed.

Lemma payload_fold (fd : gmap string string) (fields : list Field)
    (acc : gmap string Js.number) (k : string) :
  foldl (λ p field, <[name field := parseField parseFloat fd (name field)]> p)
        acc fields !! k
  = if decide (k ∈ map name fields) then Some (parseField parseFloat fd k)
    else acc !! k.
Proof.
  revert acc. induction fields as [|g l IH]; intros acc; [done|].
  simpl. rewrite IH. destruct (decide (k ∈ map name l)) as [Hl|Hl].
  - rewrite decide_True; [done|]. by apply list_elem_of_further.
  - destruct (decide (k = name g)) as [->|Hg].
    + rewrite decide_True by apply list_elem_of_here. apply lookup_insert_eq.
    + rewrite decide_False.
      * by rewrite lookup_insert_ne.
      * intros [?|?]%elem_of_cons; done.
Qed.

(** The request body has one number per declared field: what the field's
    text parses to. *)
Lemma payload_field (fd : gmap string string) (f : Field) :
  f ∈ formFields →
  payload parseFloat fd !! name f = Some (parseField parseFloat fd (name f)).
Proof.
  intros Hf. unfold payload. rewrite payload_fold.
  rewrite decide_True; [done|]. by apply list_elem_of_fmap_2.
Qed.

(** For a form that validates, these numbers are real numbers (none is
    [NaN]) within the declared ranges. *)
Lemma payload_valid (st : State) (f : Field) :
  snd (validateForm parseFloat st) = true → f ∈ formFields →
  ∃ x, payload parseFloat (formData st) !! name f = Some (Js.Num x)
       ∧ (min f <= x)%Q ∧ (x <= max f)%Q.
Proof.
  intros Hv Hf.
  pose proof (proj1 (validateForm_true st) Hv f Hf) as Hc.
  apply checkField_ok in Hc as (value & x & Hfd & _ & Hp & Hlo & Hhi).
  exists x. rewrite payload_field by done. unfold parseField. rewrite Hfd, Hp. done.
Qed.

(** On the diabetes page, a declared field that is missing from the form
    stops the submission at validation. *)
Lemma diabetes_missing_field (now : Z) (iso : string) (st : State) (f : Field) :
  f ∈ formFields →
  formData st !! name f = None ∨ formData st !! name f = Some "" →
  snd (validateForm parseFloat st) = false
  ∧ errors (handleSubmit parseFloat predict typeErrorMessage now iso st) !! name f
    = Some Required
  ∧ requests (handleSubmit parseFloat predict typeErrorMessage now iso st) = requests st
  ∧ result (handleSubmit parseFloat predict typeErrorMessage now iso st) = result st
  ∧ apiError (handleSubmit parseFloat predict typeErrorMessage now iso st) = apiError st
  ∧ hook (handleSubmit parseFloat predict typeErrorMessage now iso st) = hook st.
Proof.
  intros Hf Hm.
  pose proof (checkField_missing (formData st) f Hm) as Hc.
  pose proof (validateForm_false st f Required Hf Hc) as Hv.
  rewrite (handleSubmit_invalid now iso st Hv). unfold validateForm. simpl.
  split; [exact Hv|]. split; [|done].
  by rewrite newErrors_field.
Qed.

(** C8 (amended): what a submission leaves behind outside the page. A form
    that fails validation posts nothing and stores nothing. A form that
    validates is posted once; if the request is rejected, or its body has no
    result, nothing is stored; otherwise the submitted inputs and the
    returned prediction, probability and confidence level are put in front
    of the history, the history is cut to 50 entries and written to
    [localStorage] under the hook's key (unless that write fails), and no
    other key of the storage changes. *)
Theorem handleSubmit_persistence (now : Z) (iso : string) (st : State) :
  (snd (validateForm parseFloat st) = false →
     requests (handleSubmit parseFloat predict typeErrorMessage now iso st) = requests st
     ∧ hook (handleSubmit parseFloat predict typeErrorMessage now iso st) = hook st)
  ∧ (snd (validateForm parseFloat st) = true →
     requests (handleSubmit parseFloat predict typeErrorMessage now iso st)
     = requests st ++ [payload parseFloat (formData st)]
     ∧ match predict (payload parseFloat (formData st)) with
       | Api.Rejected _ =>
           hook (handleSubmit parseFloat predict typeErrorMessage now iso st) = hook st
       | Api.Resolved response =>
           match Api.result response with
           | None =>
               hook (handleSubmit parseFloat predict typeErrorMessage now iso st) = hook st
           | Some r =>
               let entry :=
                 {| UseLocalHistory.id := now;
                    UseLocalHistory.timestamp := iso;
                    UseLocalHistory.disease := "diabetes";
                    UseLocalHistory.inputs := Js.Number <$> payload parseFloat (formData st);
                    UseLocalHistory.prediction := Api.prediction r;
                    UseLocalHistory.probability := Api.probability r;
                    UseLocalHistory.confidenceLevel := Api.confidence_level r |} in
               let h' := hook (handleSubmit parseFloat predict typeErrorMessage now iso st) in
               UseLocalHistory.history h'
               = take UseLocalHistory.MAX_HISTORY (entry :: UseLocalHistory.history (hook st))
               ∧ UseLocalHistory.stored h'
                 = (if UseLocalHistory.full (UseLocalHistory.localStorage (hook st))
                    then UseLocalHistory.stored (hook st)
                    else Some (UseLocalHistory.history h'))
               ∧ ∀ k, k ≠ UseLocalHistory.STORAGE_KEY →
                   UseLocalHistory.getItem k (UseLocalHistory.localStorage h')
                   = UseLocalHistory.getItem k (UseLocalHistory.localStorage (hook st))
           end
       end).
Proof.
  split.
  - intros Hv. by rewrite (handleSubmit_invalid now iso st Hv).
  - intros Hv. split; [by apply handleSubmit_requests|].
    unfold handleSubmit.
    destruct (validateForm parseFloat st) as [st1 ok] eqn:E. simpl in Hv. subst ok.
    injection E as <-. simpl.
    destruct (predict _) as [response|message]; [|done].
    unfold UseLocalHistory.addToHistory.
    destruct (Api.result response) as [r|]; [|done].
    cbv zeta. cbn [hook].
    split; [reflexivity|]. split.
    + apply LocalHistoryFacts.saveHistory_stored.
    + intros k Hk. by apply LocalHistoryFacts.saveHistory_other_keys.
Qed.

End Page.

End PredictorFacts.

(** ** The heart page *)

Module HeartFacts.

Import HeartPredictor.

Section Page.

Variable parseFloat : string → Js.number.
Variable predict : gmap string Js.number → Api.Outcome Api.Response.

Lemma required_fold_other (fd : gmap string string) (fields : list Field)
    (acc : gmap string Form.FieldError) (k : string) :
  k ∉ map name fields →
  foldl (λ errs f, if isBlank fd f then <[name f := Form.Required]> errs else errs)
        acc fields !! k = acc !! k.
Proof.
  revert acc. induction fields as [|g l IH]; intros acc Hk; [done|].
  simpl in *. apply not_elem_of_cons in Hk as [Hg Hl].
  rewrite IH by done. destruct (isBlank fd g); [|done]. by rewrite lookup_insert_ne.
Qed.

Lemma required_fold_blank (fd : gmap string string) (fields : list Field)
    (acc : gmap string Form.FieldError) (k : string) :
  (∃ f, f ∈ fields ∧ name f = k ∧ isBlank fd f = true) →
  foldl (λ errs f, if isBlank fd f then <[name f := Form.Required]> errs else errs)
        acc fields !! k = Some Form.Required.
Proof.
  revert acc. induction fields as [|g l IH]; intros acc (f & Hf & Hk & Hb).
  { by apply elem_of_nil in Hf. }
  simpl. destruct (decide (k ∈ map name l)) as [Hn|Hn].
  - apply list_elem_of_fmap in Hn as (g' & Hg' & Hin).
    apply IH. exists g'. split; [done|]. split; [done|].
    unfold isBlank in *. by rewrite <- Hg', <- Hk.
  - apply elem_of_cons in Hf as [->|Hf].
    + rewrite required_fold_other by done. rewrite Hb, Hk. apply lookup_insert_eq.
    + destruct Hn. rewrite <- Hk. by apply list_elem_of_fmap_2.
Qed.

Lemma newErrors_blank (fd : gmap string string) (f : Field) :
  f ∈ formFields → isBlank fd f = true →
  newErrors fd !! name f = Some Form.Required.
Proof. intros Hf Hb. unfold newErrors. apply required_fold_blank. by exists f. Qed.

Lemma isBlank_missing (fd : gmap string string) (f : Field) :
  fd !! name f = None ∨ fd !! name f = Some "" → isBlank fd f = true.
Proof. unfold isBlank. by intros [-> | ->]. Qed.

(** On the heart page too, a declared field that is missing from the form
    stops the submission before the request. *)
Lemma heart_missing_field (st : State) (f : Field) :
  f ∈ formFields →
  formData st !! name f = None ∨ formData st !! name f = Some "" →
  errors (handleSubmit parseFloat predict st) !! name f = Some Form.Required
  ∧ requests (handleSubmit parseFloat predict st) = requests st
  ∧ result (handleSubmit parseFloat predict st) = result st
  ∧ apiError (handleSubmit parseFloat predict st) = apiError st.
Proof.
  intros Hf Hm.
  pose proof (newErrors_blank (formData st) f Hf (isBlank_missing _ _ Hm)) as He.
  unfold handleSubmit. cbv zeta.
  destruct (size (newErrors (formData st)) =? 0)%nat eqn:Es; simpl.
  - apply Nat.eqb_eq, map_size_empty_iff in Es. rewrite Es in He. done.
  - done.
Qed.

End Page.

End HeartFacts.

(** ** Submitting an incomplete form *)

Module SubmissionFacts.

(** C5: when a declared field is missing from the form (never filled in, or
    emptied), the submission fails at validation: the field's error slot
    says it is required, no request is posted to the scoring endpoint, and
    the page's result and API error (and, on the diabetes page, its
    history) are as before. This holds on both pages that submit a form,
    for every [parseFloat] and every backend. *)
Theorem handleSubmit_missing_field
    (parseFloat : string → Js.number)
    (predictDiabetes predictHeart : gmap string Js.number → Api.Outcome Api.Response)
    (typeErrorMessage : string) (now : Z) (iso : string) :
  (∀ (st : DiabetesPredictor.State) (f : Form.Field),
     f ∈ DiabetesPredictor.formFields →
     DiabetesPredictor.formData st !! Form.name f = None
     ∨ DiabetesPredictor.formData st !! Form.name f = Some "" →
     snd (DiabetesPredictor.validateForm parseFloat st) = false
     ∧ DiabetesPredictor.errors
         (DiabetesPredictor.handleSubmit parseFloat predictDiabetes typeErrorMessage
            now iso st) !! Form.name f = Some Form.Required
     ∧ DiabetesPredictor.requests
         (DiabetesPredictor.handleSubmit parseFloat predictDiabetes typeErrorMessage
            now iso st) = DiabetesPredictor.requests st
     ∧ DiabetesPredictor.result
         (DiabetesPredictor.handleSubmit parseFloat predictDiabetes typeErrorMessage
            now iso st) = DiabetesPredictor.result st
     ∧ DiabetesPredictor.apiError
         (DiabetesPredictor.handleSubmit parseFloat predictDiabetes typeErrorMessage
            now iso st) = DiabetesPredictor.apiError st
     ∧ DiabetesPredictor.hook
         (DiabetesPredictor.handleSubmit parseFloat predictDiabetes typeErrorMessage
            now iso st) = DiabetesPredictor.hook st)
  ∧ (∀ (st : HeartPredictor.State) (f : HeartPredictor.Field),
       f ∈ HeartPredictor.formFields →
       HeartPredictor.formData st !! HeartPredictor.name f = None
       ∨ HeartPredictor.formData st !! HeartPredictor.name f = Some "" →
       HeartPredictor.errors (HeartPredictor.handleSubmit parseFloat predictHeart st)
         !! HeartPredictor.name f = Some Form.Required
       ∧ HeartPredictor.requests (HeartPredictor.handleSubmit parseFloat predictHeart st)
         = HeartPredictor.requests st
       ∧ HeartPredictor.result (HeartPredictor.handleSubmit parseFloat predictHeart st)
         = HeartPredictor.result st
       ∧ HeartPredictor.apiError (HeartPredictor.handleSubmit parseFloat predictHeart st)
         = HeartPredictor.apiError st).
Proof.
  split.
  - intros st f. apply PredictorFacts.diabetes_missing_field.
  - intros st f. apply HeartFacts.heart_missing_field.
Qed.

End SubmissionFacts.

(** ** The what-if panel *)

Module WhatIfFacts.

Import WhatIfSlider.

Lemma strict_neq_false (a b : option Js.number) :
  Js.strict_neq a b = false ↔ Js.same_number a b.
Proof.
  destruct a as [[|x]|], b as [[|y]|]; simpl; try (split; (done || tauto)).
  rewrite negb_false_iff. apply Qeq_bool_iff.
Qed.

Lemma strict_neq_true (a b : option Js.number) :
  Js.strict_neq a b = true ↔ ¬ Js.same_number a b.
Proof.
  rewrite <- strict_neq_false. destruct (Js.strict_neq a b); split; (done || congruence).
Qed.

(** [hasChanges] holds exactly when some key of the original values reads
    differently in the modified values. *)
Lemma hasChanges_true (o m : gmap string Js.number) :
  hasChanges o m = true ↔
  ∃ key, key ∈ dom o ∧ ¬ Js.same_number (o !! key) (m !! key).
Proof.
  unfold hasChanges. rewrite existsb_exists. split.
  - intros (key & Hk & Hn). exists key. split.
    + apply elem_of_elements. by apply list_elem_of_In.
    + by apply strict_neq_true.
  - intros (key & Hk & Hn). exists key. split.
    + apply list_elem_of_In. by apply elem_of_elements.
    + by apply strict_neq_true.
Qed.

Lemma hasChanges_false (o m : gmap string Js.number) :
  hasChanges o m = false ↔
  ∀ key, key ∈ dom o → Js.same_number (o !! key) (m !! key).
Proof.
  split.
  - intros H key Hk. apply strict_neq_false.
    destruct (Js.strict_neq (o !! key) (m !! key)) eqn:E; [|done].
    assert (hasChanges o m = true); [|congruence].
    apply hasChanges_true. exists key. split; [done|]. by apply strict_neq_true.
  - intros H. destruct (hasChanges o m) eqn:E; [|done].
    apply hasChanges_true in E as (key & Hk & Hn). destruct Hn. by apply H.
Qed.

(** Right after mount nothing has changed, provided the original values are
    numbers ([NaN] differs from itself). *)
Lemma initial_unchanged (o : gmap string Js.number) :
  (∀ key, o !! key ≠ Some Js.NaN) → hasChanges o (modifiedValues (initial o)) = false.
Proof.
  intros H. apply hasChanges_false. intros key Hk. simpl.
  specialize (H key). destruct (o !! key) as [[|x]|]; simpl; done.
Qed.

Lemma no_failure_without_change (st : State) : ¬ reportsFailure st st.
Proof.
  intros [line H]. apply (f_equal length) in H. rewrite length_app in H.
  simpl in H. lia.
Qed.

Section Panel.

Variable onAnalyze :
  gmap string Js.number → gmap string Js.number → Api.Outcome Api.Comparison.

(** An enabled click sends exactly one what-if request, for the original
    and the modified values. *)
Lemma clickCompare_enabled (original : gmap string Js.number) (st : State) :
  compareDisabled original st = false →
  analyses (clickCompare onAnalyze original st)
  = analyses st ++ [(original, modifiedValues st)].
Proof.
  intros H. unfold clickCompare, handleAnalyze. rewrite H.
  by destruct (onAnalyze original (modifiedValues st)).
Qed.


End Panel.

End WhatIfFacts.

(** ** The history hook under sequences of calls *)

Module HookCallFacts.

Import UseLocalHistory HookCalls.

Lemma call_length (c : Call) (h : Hook) :
  (length (history h) ≤ MAX_HISTORY)%nat → (length (history (call c h)) ≤ MAX_HISTORY)%nat.
Proof.
  intros H. destruct c as [now iso d inputs result| |d|i]; simpl.
  - unfold addToHistory. destruct (Api.result result); [|done].
    cbv zeta. rewrite LocalHistoryFacts.saveHistory_history.
    apply LocalHistoryFacts.length_take_cap.
  - unfold MAX_HISTORY. lia.
  - etrans; [apply length_filter|done].
  - etrans; [apply length_filter|done].
Qed.

Lemma throws_next (s : Storage) (n : nat) : throws (next s) n = throws s (S n).
Proof.
  unfold throws, next. cbn [full later]. destruct n as [|n]; simpl.
  - by destruct (later s).
  - by destruct (later s).
Qed.

(** Every save uses up one answer of the browser, whether it is refused or
    not. *)
Lemma saveHistory_throws (l : list Entry) (h : Hook) (n : nat) :
  throws (localStorage (saveHistory l h)) n = throws (localStorage h) (S n).
Proof.
  unfold saveHistory, setItem. cbn [localStorage].
  destruct (full (localStorage h)); cbn [fst]; by rewrite throws_next.
Qed.

Lemma saveHistory_in_step (l : list Entry) (h : Hook) :
  full (localStorage h) = false →
  stored (saveHistory l h) = Some (history (saveHistory l h)).
Proof. intros Hf. by rewrite LocalHistoryFacts.saveHistory_stored, Hf. Qed.

(** A call either saves once or, when it throws, leaves the hook as it
    was. *)
Lemma call_cases (c : Call) (h : Hook) :
  call c h = h ∨ ∃ l, call c h = saveHistory l h.
Proof.
  destruct c as [now iso d inputs result| |d|i]; simpl; try (right; by eexists).
  unfold addToHistory. destruct (Api.result result); [right; by eexists|by left].
Qed.

Lemma calls_in_step (cs : list Call) (h : Hook) :
  stored h = Some (history h) →
  (∀ n, (n < length cs)%nat → throws (localStorage h) n = false) →
  stored (calls cs h) = Some (history (calls cs h)).
Proof.
  revert h. induction cs as [|c cs IH]; intros h Hs Ht; [done|].
  simpl. destruct (call_cases c h) as [->|[l ->]].
  - apply IH; [done|]. intros n Hn. apply Ht. simpl. lia.
  - apply IH.
    + apply saveHistory_in_step. apply (Ht 0%nat). simpl. lia.
    + intros n Hn. rewrite saveHistory_throws. apply Ht. simpl. lia.
Qed.

Lemma parseEntry_fixed (e : Entry) :
  parseEntry e = e ↔ ∀ k, inputs e !! k ≠ Some (Js.Number Js.NaN).
Proof.
  destruct e as [i t d m p q c]. unfold parseEntry. cbn [id timestamp disease inputs
    prediction probability confidenceLevel]. split.
  - intros [= E] k Hk.
    assert ((Js.json <$> m) !! k = m !! k) as E' by (by rewrite E).
    rewrite lookup_fmap, Hk in E'. done.
  - intros H. f_equal. apply map_eq. intros k. rewrite lookup_fmap.
    specialize (H k). destruct (m !! k) as [[|[|x]]|]; simpl; done.
Qed.

Lemma parse_fixed (l : list Entry) :
  parse l = l ↔ ∀ e k, e ∈ l → inputs e !! k ≠ Some (Js.Number Js.NaN).
Proof.
  unfold parse. induction l as [|e l IH]; simpl.
  - split; [|done]. intros _ e k He. by apply elem_of_nil in He.
  - split.
    + intros [= He Hl] e' k [->|Hin]%elem_of_cons.
      * by apply parseEntry_fixed.
      * by apply IH.
    + intros H. f_equal.
      * apply parseEntry_fixed. intros k. apply H. apply list_elem_of_here.
      * apply IH. intros e' k Hin. apply H. by apply list_elem_of_further.
Qed.

Lemma json_json (v : Js.value) : Js.json (Js.json v) = Js.json v.
Proof. by destruct v as [|[|x]]. Qed.

Lemma parse_parse (l : list Entry) : parse (parse l) = parse l.
Proof.
  unfold parse. rewrite <- list_fmap_compose. apply list_fmap_ext.
  intros _ e _. unfold compose, parseEntry. simpl. f_equal.
  rewrite <- map_fmap_compose. apply map_fmap_ext. intros k v _. apply json_json.
Qed.

Lemma parse_filter_disease (d : string) (l : list Entry) :
  filter (λ e, disease e = d) (parse l) = parse (filter (λ e, disease e = d) l).
Proof.
  unfold parse. induction l as [|e l IH]; [done|].
  rewrite fmap_cons, !filter_cons. cbn [parseEntry disease].
  case_decide; by rewrite IH.
Qed.

(** X1: whatever calls are made on the hook, in whatever order, a history
    of at most 50 entries stays at most 50 entries long. *)
Theorem calls_keep_cap (cs : list Call) (h : Hook) :
  (length (history h) ≤ MAX_HISTORY)%nat →
  (length (history (calls cs h)) ≤ MAX_HISTORY)%nat.
Proof.
  revert h. induction cs as [|c cs IH]; intros h H; [done|].
  simpl. apply IH. by apply call_length.
Qed.

(** X2: the React state and the copy in [localStorage] under a run of calls,
    with a browser that may refuse a write at any point. If the stored
    history is the state's before the run and none of the run's writes is
    refused, it is the state's after the run. When the write that follows
    is refused, the state moves on and the stored copy stays behind, at the
    history of before; the first write that goes through after that brings
    the storage up to date again. *)
Theorem calls_keep_in_step (cs : list Call) (h : Hook) (l l' : list Entry) :
  stored h = Some (history h) →
  (∀ n, (n < length cs)%nat → throws (localStorage h) n = false) →
  stored (calls cs h) = Some (history (calls cs h))
  ∧ (full (localStorage (calls cs h)) = true →
     history (saveHistory l (calls cs h)) = l
     ∧ stored (saveHistory l (calls cs h)) = Some (history (calls cs h))
     ∧ (full (localStorage (saveHistory l (calls cs h))) = false →
        stored (saveHistory l' (saveHistory l (calls cs h))) = Some l'
        ∧ history (saveHistory l' (saveHistory l (calls cs h))) = l')).
Proof.
  intros Hs Ht. pose proof (calls_in_step cs h Hs Ht) as H.
  split; [exact H|]. intros Hf. split; [done|]. split.
  - by rewrite LocalHistoryFacts.saveHistory_stored, Hf.
  - intros Hf'. split; [|done]. by rewrite LocalHistoryFacts.saveHistory_stored, Hf'.
Qed.

(** X3: reloading the page after a save. The next mount loads what
    [JSON.parse] reads from the stored text: the saved history when the
    write went through, what the storage held before when it was refused
    (nothing, if it held nothing). After a write that went through, the
    loaded history is the saved one exactly when no input of the saved
    entries is [NaN] (such an input comes back as [null]); each page's
    view of it is the reloaded view of before; and loading it once more
    changes nothing. *)
Theorem reload_after_save (l : list Entry) (h : Hook) :
  history (mount (localStorage (saveHistory l h)))
  = parse (if full (localStorage h) then default [] (stored h) else l)
  ∧ (full (localStorage h) = false →
     (history (mount (localStorage (saveHistory l h))) = l
      ↔ ∀ e k, e ∈ l → inputs e !! k ≠ Some (Js.Number Js.NaN))
     ∧ (∀ d, getHistoryByDisease d (mount (localStorage (saveHistory l h)))
             = parse (getHistoryByDisease d (saveHistory l h)))
     ∧ parse (history (mount (localStorage (saveHistory l h))))
       = history (mount (localStorage (saveHistory l h)))).
Proof.
  assert (history (mount (localStorage (saveHistory l h)))
          = parse (if full (localStorage h) then default [] (stored h) else l)) as E.
  { unfold mount, loadHistory. cbn [localStorage history].
    pose proof (LocalHistoryFacts.saveHistory_stored l h) as S. unfold stored in S.
    rewrite S. destruct (full (localStorage h)); [|done].
    unfold stored. by destruct (getItem STORAGE_KEY (localStorage h)). }
  split; [exact E|]. intros Hf. rewrite Hf in E.
  split; [rewrite E; apply parse_fixed|]. split.
  - intros d. unfold getHistoryByDisease. rewrite E.
    rewrite LocalHistoryFacts.saveHistory_history. apply parse_filter_disease.
  - rewrite E. apply parse_parse.
Qed.

(** X4: [deleteEntry] removes every entry that carries the id, and nothing
    else: the entries left are those of the old history with another id, in
    their old order, and deleting the same id again changes nothing. *)
Theorem deleteEntry_exact (i : Z) (h : Hook) :
  (∀ e, e ∈ history (deleteEntry i h) ↔ e ∈ history h ∧ id e ≠ i)
  ∧ history (deleteEntry i h) `sublist_of` history h
  ∧ history (deleteEntry i (deleteEntry i h)) = history (deleteEntry i h).
Proof.
  unfold deleteEntry. rewrite !LocalHistoryFacts.saveHistory_history.
  split; [|split].
  - intros e. rewrite list_elem_of_filter. tauto.
  - apply sublist_filter.
  - induction (history h) as [|e l IH]; [done|].
    rewrite filter_cons. case_decide as D; [|done].
    rewrite filter_cons. rewrite decide_True by done. by rewrite IH.
Qed.

(** X5: clearing one disease leaves no entry of that disease and does not
    touch what the other diseases' pages see. *)
Theorem clearDiseaseHistory_scope (d d' : string) (h : Hook) :
  getHistoryByDisease d (clearDiseaseHistory d h) = []
  ∧ (d' ≠ d →
     getHistoryByDisease d' (clearDiseaseHistory d h) = getHistoryByDisease d' h).
Proof.
  split; [apply LocalHistoryFacts.clearDiseaseHistory_none_left|].
  intros Hne. unfold getHistoryByDisease, clearDiseaseHistory.
  rewrite LocalHistoryFacts.saveHistory_history.
  induction (history h) as [|e l IH]; [done|].
  rewrite !filter_cons. destruct (decide (disease e = d')) as [E|E].
  - rewrite decide_True by congruence. rewrite filter_cons.
    rewrite decide_True by done. by rewrite IH.
  - case_decide; [|done]. rewrite filter_cons. by rewrite decide_False.
Qed.

Lemma filter_take_prefix {A : Type} (P : A → Prop) `{!∀ x, Decision (P x)}
    (n : nat) (l : list A) :
  filter P (take n l) `prefix_of` filter P l.
Proof.
  revert n. induction l as [|x l IH]; intros [|n]; simpl;
    try apply prefix_nil.
  rewrite !filter_cons. case_decide; [|apply IH].
  apply prefix_cons, IH.
Qed.

(** X6: after [addToHistory] for one disease, that disease's view starts
    with the new entry, and every other disease's view is a prefix of what
    it was: it keeps its order and can only lose entries at its old end
    (when the cap of 50 cuts them off). *)
Theorem addToHistory_views (now : Z) (iso d d' : string) (inputs : gmap string Js.value)
    (result : Api.Response) (h : Hook) (entry : Entry) (h' : Hook) :
  addToHistory now iso d inputs result h = Some (entry, h') →
  head (getHistoryByDisease d h') = Some entry
  ∧ (d' ≠ d → getHistoryByDisease d' h' `prefix_of` getHistoryByDisease d' h).
Proof.
  unfold addToHistory. destruct (Api.result result) as [r|]; [|done].
  intros [= <- <-]. unfold getHistoryByDisease.
  rewrite LocalHistoryFacts.saveHistory_history. split.
  - change (take MAX_HISTORY (?e :: history h)) with (e :: take 49 (history h)).
    rewrite filter_cons. by rewrite decide_True.
  - intros Hne.
    change (take MAX_HISTORY (?e :: history h)) with (e :: take 49 (history h)).
    rewrite filter_cons. rewrite decide_False by (simpl; congruence).
    apply filter_take_prefix.
Qed.

End HookCallFacts.

(** ** The diabetes page, handler by handler *)

Module PageFacts.

Import Form DiabetesPredictor.

Lemma same_name_same_field (l : list Field) (f g : Field) :
  NoDup (map name l) → f ∈ l → g ∈ l → name f = name g → f = g.
Proof.
  induction l as [|x l IH]; intros Hnd Hf Hg Hn.
  { by apply elem_of_nil in Hf. }
  simpl in Hnd. apply NoDup_cons in Hnd as [Hx Hnd].
  apply elem_of_cons in Hf as [->|Hf]; apply elem_of_cons in Hg as [->|Hg].
  - done.
  - destruct Hx. rewrite Hn. by apply list_elem_of_fmap_2.
  - destruct Hx. rewrite <- Hn. by apply list_elem_of_fmap_2.
  - by apply IH.
Qed.

Section Page.

Variable parseFloat : string → Js.number.
Variable predict : gmap string Js.number → Api.Outcome Api.Response.
Variable typeErrorMessage : string.

(** A form that validates leaves no error behind. *)
Lemma validateForm_clears_errors (st : State) :
  snd (validateForm parseFloat st) = true →
  errors (fst (validateForm parseFloat st)) = ∅.
Proof.
  unfold validateForm. simpl. rewrite Nat.eqb_eq. apply map_size_empty_iff.
Qed.

(** X7: the form validates exactly when every declared field holds a text
    that is not empty and that [parseFloat] reads as a number within the
    field's range, both ends of the range included. *)
Theorem validateForm_accepts (st : State) :
  snd (validateForm parseFloat st) = true ↔
  ∀ f, f ∈ formFields →
    ∃ value x, formData st !! name f = Some value ∧ value ≠ ""
               ∧ parseFloat value = Js.Num x ∧ (min f <= x)%Q ∧ (x <= max f)%Q.
Proof.
  rewrite PredictorFacts.validateForm_true. split; intros H f Hf.
  - by apply PredictorFacts.checkField_ok, H.
  - by apply PredictorFacts.checkField_ok, H.
Qed.

(** X8: a declared field whose text is not a number, or is a number outside
    the field's range, stops the submission at validation: the field's
    error slot says so (with the field's own bounds), nothing is posted, and
    result and history are as before. *)
Theorem handleSubmit_rejects_bad_number (now : Z) (iso : string) (st : State)
    (f : Field) (value : string) :
  f ∈ formFields →
  formData st !! name f = Some value → value ≠ "" →
  (parseFloat value = Js.NaN
   ∨ ∃ x, parseFloat value = Js.Num x ∧ ((x < min f)%Q ∨ (max f < x)%Q)) →
  snd (validateForm parseFloat st) = false
  ∧ errors (handleSubmit parseFloat predict typeErrorMessage now iso st) !! name f
    = Some (match parseFloat value with
            | Js.NaN => NotANumber
            | Js.Num _ => OutOfRange (min f) (max f)
            end)
  ∧ requests (handleSubmit parseFloat predict typeErrorMessage now iso st) = requests st
  ∧ result (handleSubmit parseFloat predict typeErrorMessage now iso st) = result st
  ∧ hook (handleSubmit parseFloat predict typeErrorMessage now iso st) = hook st.
Proof.
  intros Hf Hv Hne Hbad.
  assert (checkField parseFloat (formData st) f
          = Some (match parseFloat value with
                  | Js.NaN => NotANumber
                  | Js.Num _ => OutOfRange (min f) (max f)
                  end)) as Hc.
  { unfold checkField. rewrite Hv.
    apply String.eqb_neq in Hne. rewrite Hne.
    destruct Hbad as [->|(x & -> & Hx)]; [done|].
    destruct (Qle_bool (min f) x) eqn:E1; simpl; [|done].
    destruct (Qle_bool x (max f)) eqn:E2; simpl; [|done].
    apply Qle_bool_iff in E1, E2. destruct Hx as [Hx|Hx].
    - by apply Qlt_not_le in Hx.
    - by apply Qlt_not_le in Hx. }
  pose proof (PredictorFacts.validateForm_false parseFloat st f _ Hf Hc) as Hval.
  rewrite (PredictorFacts.handleSubmit_invalid parseFloat predict typeErrorMessage
             now iso st Hval).
  unfold validateForm. simpl. split; [exact Hval|]. split; [|done].
  by rewrite PredictorFacts.newErrors_field.
Qed.

(** X9: the request body has exactly the declared fields as its keys,
    whatever the form holds: a key of the form that is not a declared field
    is never sent, and a declared field is always sent, as what its text
    parses to ([NaN] for a field the form does not hold). *)
Theorem payload_keys (fd : gmap string string) (k : string) :
  (k ∈ map name formFields →
   payload parseFloat fd !! k = Some (parseField parseFloat fd k))
  ∧ (k ∉ map name formFields → payload parseFloat fd !! k = None)
  ∧ (fd !! k = None → k ∈ map name formFields →
     payload parseFloat fd !! k = Some Js.NaN).
Proof.
  unfold payload. rewrite PredictorFacts.payload_fold.
  split; [|split].
  - intros Hk. by rewrite decide_True.
  - intros Hk. by rewrite decide_False.
  - intros Hn Hk. rewrite decide_True by done. unfold parseField. by rewrite Hn.
Qed.

(** The state a submission that validates ends in. *)
Lemma handleSubmit_valid (now : Z) (iso : string) (st : State) :
  snd (validateForm parseFloat st) = true →
  handleSubmit parseFloat predict typeErrorMessage now iso st =
  let body := payload parseFloat (formData st) in
  match predict body with
  | Api.Rejected message =>
      {| formData := formData st; errors := ∅; loading := false;
         result := result st;
         apiError := Some (Js.or_else message "Failed to get prediction. Please try again.");
         showWhatIf := showWhatIf st; hook := hook st;
         requests := requests st ++ [body] |}
  | Api.Resolved response =>
      match UseLocalHistory.addToHistory now iso "diabetes" (Js.Number <$> body) response
              (hook st) with
      | Some (_, hook') =>
          {| formData := formData st; errors := ∅; loading := false;
             result := Some response; apiError := None;
             showWhatIf := showWhatIf st; hook := hook'; requests := requests st ++ [body] |}
      | None =>
          {| formData := formData st; errors := ∅; loading := false;
             result := Some response;
             apiError := Some (Js.or_else typeErrorMessage
                                 "Failed to get prediction. Please try again.");
             showWhatIf := showWhatIf st; hook := hook st;
             requests := requests st ++ [body] |}
      end
  end.
Proof.
  intros Hv. pose proof (validateForm_clears_errors st Hv) as He.
  unfold handleSubmit.
  destruct (validateForm parseFloat st) as [st1 ok] eqn:E. simpl in Hv, He. subst ok.
  assert (st1 = fst (validateForm parseFloat st)) as Hst by (by rewrite E).
  unfold validateForm in Hst. simpl in Hst. subst st1. simpl in *. rewrite He.
  reflexivity.
Qed.

(** X10: when the form validates and the request is rejected, the message of
    the rejection is shown (the page's own text only if that message is
    empty), the spinner is off, all error slots are clear, and the result on
    screen and the history are as before. *)
Theorem handleSubmit_rejected (now : Z) (iso : string) (st : State) (message : string) :
  snd (validateForm parseFloat st) = true →
  predict (payload parseFloat (formData st)) = Api.Rejected message →
  apiError (handleSubmit parseFloat predict typeErrorMessage now iso st)
  = Some (if decide (message = "") then "Failed to get prediction. Please try again."
          else message)
  ∧ loading (handleSubmit parseFloat predict typeErrorMessage now iso st) = false
  ∧ errors (handleSubmit parseFloat predict typeErrorMessage now iso st) = ∅
  ∧ result (handleSubmit parseFloat predict typeErrorMessage now iso st) = result st
  ∧ hook (handleSubmit parseFloat predict typeErrorMessage now iso st) = hook st.
Proof.
  intros Hv Hp. rewrite (handleSubmit_valid now iso st Hv). cbv zeta. rewrite Hp. simpl.
  split; [|done]. unfold Js.or_else.
  destruct (String.eqb_spec message "") as [->|Hm].
  - by rewrite decide_True.
  - by rewrite decide_False.
Qed.


(** X12: after an answered submission the result is on screen with no
    error, so the history panel is hidden; once the page is reset for a new
    assessment the panel is back, and its first row is the assessment just
    made. *)
Theorem handleSubmit_then_reset_panel (now : Z) (iso : string) (st : State)
    (response : Api.Response) (r : Api.Prediction) :
  snd (validateForm parseFloat st) = true →
  predict (payload parseFloat (formData st)) = Api.Resolved response →
  Api.result response = Some r →
  result (handleSubmit parseFloat predict typeErrorMessage now iso st) = Some response
  ∧ apiError (handleSubmit parseFloat predict typeErrorMessage now iso st) = None
  ∧ DiabetesPanels.historyPanelShown
      (handleSubmit parseFloat predict typeErrorMessage now iso st) = false
  ∧ DiabetesPanels.historyPanelShown
      (handleReset (handleSubmit parseFloat predict typeErrorMessage now iso st)) = true
  ∧ head (HistoryPanel.rows true
            (DiabetesPanels.diabetesHistory
               (handleReset (handleSubmit parseFloat predict typeErrorMessage now iso st))))
    = Some {| UseLocalHistory.id := now;
              UseLocalHistory.timestamp := iso;
              UseLocalHistory.disease := "diabetes";
              UseLocalHistory.inputs := Js.Number <$> payload parseFloat (formData st);
              UseLocalHistory.prediction := Api.prediction r;
              UseLocalHistory.probability := Api.probability r;
              UseLocalHistory.confidenceLevel := Api.confidence_level r |}.
Proof.
  intros Hv Hp Hr. rewrite (handleSubmit_valid now iso st Hv). cbv zeta. rewrite Hp.
  unfold UseLocalHistory.addToHistory. rewrite Hr. cbv zeta.
  unfold DiabetesPanels.historyPanelShown, DiabetesPanels.diabetesHistory, handleReset.
  cbn [result apiError hook].
  unfold UseLocalHistory.getHistoryByDisease.
  rewrite LocalHistoryFacts.saveHistory_history.
  change (take UseLocalHistory.MAX_HISTORY (?e :: ?l)) with (e :: take 49 l).
  rewrite filter_cons. rewrite decide_True by done.
  split; [done|]. split; [done|]. split; [apply andb_false_r|]. done.
Qed.

(** X13: a reset empties the form, so a submission right after it posts
    nothing and flags every declared field as required. *)
Theorem handleReset_then_submit (now : Z) (iso : string) (st : State) :
  requests (handleSubmit parseFloat predict typeErrorMessage now iso (handleReset st))
  = requests st
  ∧ hook (handleSubmit parseFloat predict typeErrorMessage now iso (handleReset st))
    = hook st
  ∧ result (handleSubmit parseFloat predict typeErrorMessage now iso (handleReset st))
    = None
  ∧ ∀ f, f ∈ formFields →
      errors (handleSubmit parseFloat predict typeErrorMessage now iso (handleReset st))
        !! name f = Some Required.
Proof.
  assert (∀ f, f ∈ formFields →
            checkField parseFloat (formData (handleReset st)) f = Some Required) as Hc.
  { intros f _. apply PredictorFacts.checkField_missing. left. apply lookup_empty. }
  assert (snd (validateForm parseFloat (handleReset st)) = false) as Hv.
  { apply (PredictorFacts.validateForm_false parseFloat _
             {| name := "age"; label := "Age"; type := "number";
                min := 1; max := 120; step := 1 |} Required).
    - do 7 apply list_elem_of_further. apply list_elem_of_here.
    - apply PredictorFacts.checkField_missing. left. apply lookup_empty. }
  rewrite (PredictorFacts.handleSubmit_invalid parseFloat predict typeErrorMessage
             now iso _ Hv).
  unfold validateForm. cbn [fst errors requests hook result].
  split; [done|]. split; [done|]. split; [done|].
  intros f Hf. rewrite PredictorFacts.newErrors_field by done. by apply Hc.
Qed.

(** X14: when one declared field is the only one that fails its check,
    typing a good value into it makes the form validate: an edit of one
    field changes the check of no other. *)
Theorem handleChange_fixes_form (st : State) (f : Field) (value : string) (x : Q) :
  f ∈ formFields →
  (∀ g, g ∈ formFields → name g ≠ name f →
        checkField parseFloat (formData st) g = None) →
  value ≠ "" → parseFloat value = Js.Num x → (min f <= x)%Q → (x <= max f)%Q →
  snd (validateForm parseFloat (handleChange (name f) value st)) = true
  ∧ errors (handleChange (name f) value st) !! name f = None.
Proof.
  intros Hf Hothers Hne Hp Hlo Hhi. split; [|apply lookup_delete_eq].
  apply PredictorFacts.validateForm_true. intros g Hg.
  destruct (decide (name g = name f)) as [E|E].
  - assert (g = f) as -> by
      (by apply (same_name_same_field formFields);
         [apply PredictorFacts.formFields_names_nodup|..]).
    apply PredictorFacts.checkField_ok. exists value, x.
    simpl. rewrite lookup_insert_eq. done.
  - rewrite <- (Hothers g Hg E). unfold checkField. simpl.
    by rewrite lookup_insert_ne.
Qed.

End Page.

End PageFacts.

(** ** The what-if panel, control by control *)

Module PanelFacts.

Import WhatIfSlider.

Lemma same_number_refl (v : option Js.number) :
  v ≠ Some Js.NaN → Js.same_number v v.
Proof. destruct v as [[|x]|]; simpl; (done || reflexivity). Qed.

Section Panel.

Variable parseFloat : string → Js.number.
Variable onAnalyze :
  gmap string Js.number → gmap string Js.number → Api.Outcome Api.Comparison.

(** X15: when the what-if panel is opened on a form that validated, the
    original values are numbers within their ranges, nothing counts as
    changed, and both buttons are disabled. *)
Theorem whatIf_opens_unchanged (st : DiabetesPredictor.State) :
  snd (DiabetesPredictor.validateForm parseFloat st) = true →
  hasChanges (DiabetesPredictor.originalValues parseFloat st)
    (modifiedValues (initial (DiabetesPredictor.originalValues parseFloat st))) = false
  ∧ compareDisabled (DiabetesPredictor.originalValues parseFloat st)
      (initial (DiabetesPredictor.originalValues parseFloat st)) = true
  ∧ resetDisabled (DiabetesPredictor.originalValues parseFloat st)
      (initial (DiabetesPredictor.originalValues parseFloat st)) = true
  ∧ ∀ f, f ∈ DiabetesPredictor.formFields →
      ∃ x, DiabetesPredictor.originalValues parseFloat st !! Form.name f = Some (Js.Num x)
           ∧ (Form.min f <= x)%Q ∧ (x <= Form.max f)%Q.
Proof.
  intros Hv.
  change (DiabetesPredictor.originalValues parseFloat st)
    with (DiabetesPredictor.payload parseFloat (DiabetesPredictor.formData st)).
  assert (hasChanges (DiabetesPredictor.payload parseFloat (DiabetesPredictor.formData st))
            (modifiedValues
               (initial (DiabetesPredictor.payload parseFloat
                           (DiabetesPredictor.formData st)))) = false) as H.
  { apply WhatIfFacts.initial_unchanged. intros key.
    unfold DiabetesPredictor.payload. rewrite PredictorFacts.payload_fold.
    case_decide as Hk; [|by rewrite lookup_empty].
    apply list_elem_of_fmap in Hk as (f & -> & Hf).
    destruct (PredictorFacts.payload_valid parseFloat st f Hv Hf) as (x & Hx & _).
    rewrite PredictorFacts.payload_field in Hx by done. congruence. }
  unfold compareDisabled, resetDisabled. rewrite H. simpl.
  split; [done|]. split; [done|]. split; [done|].
  intros f Hf. by apply PredictorFacts.payload_valid.
Qed.

(** X16: moving a slider to a number other than the original value makes
    the panel count a change; moving it back to the original value makes it
    count none again (the original values being numbers). *)
Theorem slider_change_and_back (o : gmap string Js.number) (k value value' : string)
    (a b a' : Q) :
  (∀ key, o !! key ≠ Some Js.NaN) →
  o !! k = Some (Js.Num a) →
  parseFloat value = Js.Num b → ¬ (a == b)%Q →
  parseFloat value' = Js.Num a' → (a == a')%Q →
  hasChanges o (modifiedValues (handleSliderChange parseFloat k value (initial o))) = true
  ∧ hasChanges o
      (modifiedValues
         (handleSliderChange parseFloat k value'
            (handleSliderChange parseFloat k value (initial o)))) = false.
Proof.
  intros Hnan Hk Hb Hab Ha' Haa'. simpl. rewrite Hb, Ha'. split.
  - apply WhatIfFacts.hasChanges_true. exists k. split.
    + apply elem_of_dom. by rewrite Hk.
    + rewrite Hk, lookup_insert_eq. done.
  - apply WhatIfFacts.hasChanges_false. intros key Hkey.
    destruct (decide (key = k)) as [->|Hne].
    + rewrite Hk, lookup_insert_eq. done.
    + rewrite !lookup_insert_ne by done. apply same_number_refl, Hnan.
Qed.

(** X17: an original value that is [NaN] counts as changed for good: [NaN]
    differs from itself, so whatever the modified values are (also right
    after a reset) the panel reports changes. *)
Theorem nan_original_always_changed (o : gmap string Js.number) (k : string)
    (st : State) :
  o !! k = Some Js.NaN →
  hasChanges o (modifiedValues st) = true
  ∧ hasChanges o (modifiedValues (handleReset o st)) = true
  ∧ resetDisabled o (handleReset o st) = false.
Proof using Type.
  intros Hk.
  assert (∀ m, hasChanges o m = true) as H.
  { intros m. apply WhatIfFacts.hasChanges_true. exists k. split.
    - apply elem_of_dom. by rewrite Hk.
    - rewrite Hk. simpl. by intros []. }
  unfold resetDisabled. rewrite !H. done.
Qed.

(** X18: only the keys of the original values are compared. A slider whose
    name is not among them can be moved at will: whether the panel counts a
    change is not affected. *)
Theorem slider_outside_original_ignored (o : gmap string Js.number) (k value : string)
    (st : State) :
  k ∉ dom o →
  hasChanges o (modifiedValues (handleSliderChange parseFloat k value st))
  = hasChanges o (modifiedValues st).
Proof.
  intros Hk. apply Bool.eq_iff_eq_true. rewrite !WhatIfFacts.hasChanges_true. simpl.
  split; intros (key & Hkey & Hn); exists key; (split; [done|]).
  - rewrite lookup_insert_ne in Hn; [done|]. intros ->. done.
  - rewrite lookup_insert_ne; [done|]. intros ->. done.
Qed.

(** X19: a slider that is drawn as changed always counts as a change (its
    name being a key of the original values), so the two buttons are enabled
    whenever some slider shows an arrow. *)
Theorem isChanged_counts (o : gmap string Js.number) (st : State) (field : Form.Field) :
  Form.name field ∈ dom o →
  isChanged o st field = true →
  hasChanges o (modifiedValues st) = true ∧ resetDisabled o st = false.
Proof.
  intros Hk Hc.
  assert (hasChanges o (modifiedValues st) = true) as H.
  { apply WhatIfFacts.hasChanges_true. exists (Form.name field). split; [done|].
    unfold isChanged in Hc. apply negb_true_iff in Hc.
    intros S. assert (Qeq_bool (Js.or_zero (o !! Form.name field))
                        (Js.or_zero (modifiedValues st !! Form.name field)) = true);
      [|congruence].
    apply Qeq_bool_iff.
    destruct (o !! Form.name field) as [[|x]|],
             (modifiedValues st !! Form.name field) as [[|y]|]; simpl in *;
      (done || reflexivity). }
  unfold resetDisabled. by rewrite H.
Qed.

(** X20: an enabled click on Compare sends one request for the original and
    the modified values and leaves the sliders alone. If the request
    resolves, its comparison is shown and nothing is printed; if it is
    rejected, the comparison shown before stays on screen and one line is
    printed to the console. *)
Theorem clickCompare_outcomes (o : gmap string Js.number) (st : State) :
  compareDisabled o st = false →
  analyses (clickCompare onAnalyze o st) = analyses st ++ [(o, modifiedValues st)]
  ∧ modifiedValues (clickCompare onAnalyze o st) = modifiedValues st
  ∧ isAnalyzing (clickCompare onAnalyze o st) = false
  ∧ match onAnalyze o (modifiedValues st) with
    | Api.Resolved r =>
        comparisonResult (clickCompare onAnalyze o st) = Some r
        ∧ console (clickCompare onAnalyze o st) = console st
    | Api.Rejected message =>
        comparisonResult (clickCompare onAnalyze o st) = comparisonResult st
        ∧ reportsFailure st (clickCompare onAnalyze o st)
    end.
Proof.
  intros H. unfold clickCompare, handleAnalyze. rewrite H.
  destruct (onAnalyze o (modifiedValues st)) as [r|message]; simpl.
  - done.
  - repeat split. by eexists.
Qed.

End Panel.

(** X21: at most six sliders are shown; they are numeric fields of the
    table, in the table's order. For the diabetes form these are its first
    six fields, so the pedigree function and the age have no slider. *)
Theorem sliders_shape (fields : list Form.Field) :
  (length (sliders fields) ≤ 6)%nat
  ∧ sliders fields `sublist_of` fields
  ∧ Forall (λ f, Form.type f = "number") (sliders fields)
  ∧ map Form.name (sliders DiabetesPredictor.formFields)
    = ["pregnancies"; "glucose"; "blood_pressure"; "skin_thickness"; "insulin"; "bmi"].
Proof.
  unfold sliders. split; [|split; [|split]].
  - rewrite length_take. lia.
  - etrans; [apply sublist_take|apply sublist_filter].
  - apply Forall_take. apply Forall_forall. intros f Hf.
    by apply list_elem_of_filter in Hf as [Hf _].
  - by vm_compute.
Qed.

Local Open Scope Q_scope.

Lemma round_zero (x : Q) : - (1 # 2) <= x → x < 1 # 2 → Js.round x = 0%Z.
Proof.
  intros Hlo Hhi. unfold Js.round.
  assert (0 <= Qfloor (x + (1 # 2)))%Z as H0.
  { change 0%Z with (Qfloor 0). apply Qfloor_resp_le. lra. }
  assert (Qfloor (x + (1 # 2)) < 1)%Z as H1.
  { rewrite Zlt_Qlt. eapply Qle_lt_trans; [apply Qfloor_le|].
    change (inject_Z 1) with 1. lra. }
  lia.
Qed.

(** X22: the caption under a comparison. It says "increased" exactly for a
    positive change; the figure is never negative; and a change of less
    than half a percentage point either way is shown as 0%, so an unchanged
    risk reads "decreased by 0%". *)
Theorem change_caption (c : Api.Comparison) :
  (changeLabel c = "increased" ↔ 0 < Api.probability_change c)
  ∧ (0 ≤ changePercent c)%Z
  ∧ (- (1 # 200) <= Api.probability_change c → Api.probability_change c < 1 # 200 →
     changePercent c = 0%Z)
  ∧ (Api.probability_change c == 0 →
     changeLabel c = "decreased" ∧ changePercent c = 0%Z).
Proof.
  unfold changeLabel, changePercent.
  split; [|split; [apply Z.abs_nonneg|split]].
  - destruct (Qle_bool (Api.probability_change c) 0) eqn:E; simpl.
    + apply Qle_bool_iff in E. split; [done|]. intros H. lra.
    + split; [|done]. intros _. apply Qnot_le_lt. intros H.
      apply Qle_bool_iff in H. congruence.
  - intros Hlo Hhi. rewrite round_zero; [done|lra|lra].
  - intros Hz. split.
    + assert (Qle_bool (Api.probability_change c) 0 = true) as ->; [|done].
      apply Qle_bool_iff. lra.
    + rewrite round_zero; [done|lra|lra].
Qed.

End PanelFacts.

(** ** The risk chart and the history rows *)

Module ChartFacts.

Local Open Scope Q_scope.

Lemma round_monotone (x y : Q) : x <= y → (Js.round x ≤ Js.round y)%Z.
Proof. intros H. unfold Js.round. apply Qfloor_resp_le. lra. Qed.

(** X23: the caption of the risk chart never shows a negative figure: it
    shows the distance between the two rounded risks. The bar is red
    exactly when the caption says "higher", which needs the probability to
    be above the population average; a probability at or below the average
    always reads "lower" on a green bar, also when the two rounded risks are
    equal. *)
Theorem riskChart_caption (probability populationAverage : Q) :
  RiskChart.captionDifference probability populationAverage
  = Z.abs (RiskChart.userRisk probability - RiskChart.avgRisk populationAverage)
  ∧ (RiskChart.captionWord probability populationAverage = "higher"
     ↔ RiskChart.fill probability populationAverage = "#ef4444")
  ∧ (RiskChart.captionWord probability populationAverage = "higher"
     → populationAverage < probability)
  ∧ (probability <= populationAverage →
     RiskChart.captionWord probability populationAverage = "lower"
     ∧ RiskChart.fill probability populationAverage = "#10b981").
Proof.
  unfold RiskChart.captionDifference, RiskChart.captionWord, RiskChart.fill.
  assert (probability <= populationAverage →
          (RiskChart.avgRisk populationAverage <? RiskChart.userRisk probability)%Z = false)
    as Hle.
  { intros H. apply Z.ltb_ge. apply round_monotone. nra. }
  destruct (RiskChart.avgRisk populationAverage <? RiskChart.userRisk probability)%Z eqn:E.
  - apply Z.ltb_lt in E. split; [lia|]. split; [done|]. split.
    + intros _. apply Qnot_le_lt. intros H. specialize (Hle H). done.
    + intros H. specialize (Hle H). done.
  - apply Z.ltb_ge in E. split; [lia|]. split; [done|]. split; done.
Qed.

(** X24: a row of the history panel. The badge is green ([low-risk]) exactly
    when its text is "Low Risk", that is for prediction 0, however high the
    probability; it is red ([high-risk]) exactly for another prediction
    with a probability of at least 0.7. *)
Theorem historyRow_colour (entry : UseLocalHistory.Entry) :
  (HistoryPanel.getRiskColor (UseLocalHistory.prediction entry)
     (UseLocalHistory.probability entry) = "low-risk"
   ↔ HistoryPanel.riskLabel entry = "Low Risk")
  ∧ (HistoryPanel.riskLabel entry = "Low Risk" ↔ UseLocalHistory.prediction entry = 0%Z)
  ∧ (HistoryPanel.getRiskColor (UseLocalHistory.prediction entry)
       (UseLocalHistory.probability entry) = "high-risk"
     ↔ UseLocalHistory.prediction entry ≠ 0%Z
       ∧ 7 # 10 <= UseLocalHistory.probability entry).
Proof.
  unfold HistoryPanel.getRiskColor, HistoryPanel.riskLabel.
  destruct (Z.eqb_spec (UseLocalHistory.prediction entry) 0) as [E|E].
  - split; [done|]. split; [done|]. split; [done|]. by intros [? _].
  - destruct (Qle_bool (7 # 10) (UseLocalHistory.probability entry)) eqn:Ep.
    + apply Qle_bool_iff in Ep. split; [done|]. split; [done|]. done.
    + split; [done|]. split; [done|]. split; [done|].
      intros [_ H]. apply Qle_bool_iff in H. congruence.
Qed.

End ChartFacts.

(** ** The API client *)

Module ClientFacts.

Import ApiClient.

Section Client.

Variable syntaxErrorMessage : string.
Variable typeErrorMessage : string.

(** X25: [apiRequest] resolves only for a response that is [ok] and whose
    body parses, and then with that body; a response that is not [ok] is
    always rejected, whatever its body. *)
Theorem apiRequest_resolves_only_ok {A : Type} (fetched : Fetched A) (a : A) :
  (apiRequest syntaxErrorMessage typeErrorMessage fetched = Api.Resolved a
   ↔ fetched = Ok (Some a))
  ∧ ∀ status body, ∃ message,
      apiRequest syntaxErrorMessage typeErrorMessage (@Failed A status body)
      = Api.Rejected message.
Proof.
  split.
  - destruct fetched as [m|[d|]|status [| |[t|]]]; simpl; split; intros H;
      try discriminate; by injection H as ->.
  - intros status [| |[t|]]; simpl; by eexists.
Qed.

(** X26: what the diabetes page shows when the server answers a valid form
    with a failure status. A truthy [detail] in the body is shown as the
    error; without one (or with a body that is not JSON) the text is "API
    Error: " followed by the status, so the page's own fallback text does
    not appear. The form is posted once and nothing is stored. *)
Theorem handleSubmit_http_failure (parseFloat : string → Js.number)
    (server : gmap string Js.number → Fetched Api.Response)
    (now : Z) (iso : string) (st : DiabetesPredictor.State)
    (status : nat) (body : ErrorBody) :
  snd (DiabetesPredictor.validateForm parseFloat st) = true →
  server (DiabetesPredictor.payload parseFloat (DiabetesPredictor.formData st))
  = Failed status body →
  DiabetesPredictor.apiError
    (DiabetesPredictor.handleSubmit parseFloat
       (λ b, apiRequest syntaxErrorMessage typeErrorMessage (server b))
       typeErrorMessage now iso st)
  = Some (match body with
          | Value (Some text) =>
              Js.or_else text "Failed to get prediction. Please try again."
          | Null =>
              Js.or_else typeErrorMessage "Failed to get prediction. Please try again."
          | _ => "API Error: " +:+ pretty status
          end)
  ∧ DiabetesPredictor.requests
      (DiabetesPredictor.handleSubmit parseFloat
         (λ b, apiRequest syntaxErrorMessage typeErrorMessage (server b))
         typeErrorMessage now iso st)
    = DiabetesPredictor.requests st
      ++ [DiabetesPredictor.payload parseFloat (DiabetesPredictor.formData st)]
  ∧ DiabetesPredictor.hook
      (DiabetesPredictor.handleSubmit parseFloat
         (λ b, apiRequest syntaxErrorMessage typeErrorMessage (server b))
         typeErrorMessage now iso st)
    = DiabetesPredictor.hook st.
Proof.
  intros Hv Hs. rewrite (PageFacts.handleSubmit_valid _ _ _ now iso st Hv).
  cbv zeta. rewrite Hs.
  destruct body as [| |[text|]]; simpl; done.
Qed.

End Client.

End ClientFacts.

(** ** The heart page, submitted complete *)

Module HeartSubmitFacts.

Import HeartPredictor.

Section Page.

Variable parseFloat : string → Js.number.
Variable predict : gmap string Js.number → Api.Outcome Api.Response.

Lemma required_fold_none (fd : gmap string string) (fields : list Field)
    (acc : gmap string Form.FieldError) :
  (∀ f, f ∈ fields → isBlank fd f = false) →
  foldl (λ errs f, if isBlank fd f then <[name f := Form.Required]> errs else errs)
        acc fields = acc.
Proof.
  revert acc. induction fields as [|g l IH]; intros acc H; [done|].
  simpl. rewrite (H g) by apply list_elem_of_here.
  apply IH. intros f Hf. apply H. by apply list_elem_of_further.
Qed.

Lemma heart_payload_fold (fd : gmap string string) (fields : list Field)
    (acc : gmap string Js.number) (k : string) :
  foldl (λ p f, <[name f := parseField parseFloat fd (name f)]> p) acc fields !! k
  = if decide (k ∈ map name fields) then Some (parseField parseFloat fd k)
    else acc !! k.
Proof.
  revert acc. induction fields as [|g l IH]; intros acc; [done|].
  simpl. rewrite IH. destruct (decide (k ∈ map name l)) as [Hl|Hl].
  - rewrite decide_True; [done|]. by apply list_elem_of_further.
  - destruct (decide (k = name g)) as [->|Hg].
    + rewrite decide_True by apply list_elem_of_here. apply lookup_insert_eq.
    + rewrite decide_False.
      * by rewrite lookup_insert_ne.
      * intros [?|?]%elem_of_cons; done.
Qed.

(** X27: the heart page checks presence only. A form in which every
    declared field holds some text is always posted, once, with each field
    sent as whatever [parseFloat] makes of its text, [NaN] included; and the
    error slots are left as they were, not cleared. *)
Theorem heart_complete_form_posted (st : State) :
  (∀ f, f ∈ formFields → ∃ value, formData st !! name f = Some value ∧ value ≠ "") →
  requests (handleSubmit parseFloat predict st)
  = requests st ++ [payload parseFloat (formData st)]
  ∧ errors (handleSubmit parseFloat predict st) = errors st
  ∧ loading (handleSubmit parseFloat predict st) = false
  ∧ ∀ f, f ∈ formFields →
      ∃ value, formData st !! name f = Some value
               ∧ payload parseFloat (formData st) !! name f = Some (parseFloat value).
Proof.
  intros H.
  assert (newErrors (formData st) = ∅) as He.
  { unfold newErrors. apply required_fold_none. intros f Hf.
    destruct (H f Hf) as (value & Hv & Hne). unfold isBlank. rewrite Hv.
    by apply String.eqb_neq. }
  unfold handleSubmit. cbv zeta. rewrite He. rewrite map_size_empty. simpl.
  assert (∀ f, f ∈ formFields →
            ∃ value, formData st !! name f = Some value
                     ∧ payload parseFloat (formData st) !! name f
                       = Some (parseFloat value)) as Hp.
  { intros f Hf. destruct (H f Hf) as (value & Hv & _). exists value. split; [done|].
    unfold payload. rewrite heart_payload_fold.
    rewrite decide_True by (by apply list_elem_of_fmap_2).
    unfold parseField. by rewrite Hv. }
  destruct (predict (payload parseFloat (formData st))); simpl; done.
Qed.

End Page.

End HeartSubmitFacts.

(** ** The history panel on the diabetes page *)

Module PanelMountFacts.

Import DiabetesPredictor DiabetesPanels.

(** X28: the diabetes page mounts the history panel only with a history the
    panel does render (it is never handed an empty one). "Clear All" takes
    the panel away, removes the diabetes entries only, and leaves every
    other disease's entries, the form and the result as they are. *)
Theorem onClearAll_hides_panel (st : State) (d : string) :
  (historyPanelShown st = true → HistoryPanel.rendered (diabetesHistory st) = true)
  ∧ historyPanelShown (onClearAll st) = false
  ∧ diabetesHistory (onClearAll st) = []
  ∧ (d ≠ "diabetes" →
     UseLocalHistory.getHistoryByDisease d (hook (onClearAll st))
     = UseLocalHistory.getHistoryByDisease d (hook st))
  ∧ formData (onClearAll st) = formData st
  ∧ result (onClearAll st) = result st.
Proof.
  assert (diabetesHistory (onClearAll st) = []) as E
    by apply LocalHistoryFacts.clearDiseaseHistory_none_left.
  split; [|split; [|split; [|split]]].
  - unfold historyPanelShown, HistoryPanel.rendered. by intros [H _]%andb_true_iff.
  - unfold historyPanelShown. by rewrite E.
  - exact E.
  - intros Hd. unfold onClearAll, withHook. cbn [hook].
    unfold UseLocalHistory.getHistoryByDisease, UseLocalHistory.clearDiseaseHistory.
    rewrite LocalHistoryFacts.saveHistory_history.
    induction (UseLocalHistory.history (hook st)) as [|e l IH]; [done|].
    rewrite !filter_cons. destruct (decide (UseLocalHistory.disease e = d)) as [Ed|Ed].
    + rewrite decide_True by congruence. rewrite filter_cons.
      rewrite decide_True by done. by rewrite IH.
    + case_decide; [|done]. rewrite filter_cons. by rewrite decide_False.
  - done.
Qed.

End PanelMountFacts.

(** ** Worked scenarios *)

Module Scenarios.

Import Sample.

Local Open Scope Q_scope.

(** The specification's scenario on the client side: a prediction of 0.82
    with level HIGH and outcome 1 is drawn as an 82% bar of class
    [high-risk] under the title for elevated risk. *)
Example confidenceMeter_82 :
  ConfidenceMeter.percentage (Api.probability prediction82) = 82%Z
  ∧ ConfidenceMeter.barClass (Api.confidence_level prediction82)
      (Api.prediction prediction82) = "high-risk"
  ∧ ConfidenceMeter.levelText (Api.confidence_level prediction82) = Some "High Confidence"
  ∧ ResultsView.riskTitle prediction82 = "Elevated Risk Detected".
Proof. by vm_compute. Qed.

(** The engine's scenario: threshold 0.5, features [a] and [b], and a scorer
    that answers 0.82 on [{a: 1, b: 1}]. *)
Example score_scenario_82 :
  ∃ r w, Engine.score bundle_ab vector11 world0 = (Engine.Ok r, w)
         ∧ Engine.prediction r = 1%Z
         ∧ Engine.probability r == 82 # 100
         ∧ Engine.confidence r = Engine.HIGH.
Proof. eexists _, _. split; [by vm_compute|]. by vm_compute. Qed.

Lemma confidence_level_bands_witness :
  (0 <= 82 # 100 ∧ 82 # 100 <= 1)
  ∧ (Engine.confidence_level (82 # 100) = Engine.HIGH
     ↔ 3 # 10 <= Qabs ((82 # 100) - (1 # 2)))
  ∧ Engine.confidence_level (1 - (82 # 100)) = Engine.confidence_level (82 # 100).
Proof.
  assert (0 <= 82 # 100 ∧ 82 # 100 <= 1) as H by (split; by vm_compute).
  split; [exact H|].
  destruct (EngineFacts.confidence_level_bands (82 # 100) H) as (_ & HH & _ & _ & _ & _ & _ & HS).
  split; [exact HH|exact HS].
Defined.

Lemma feature_a_differs : ¬ Engine.same_at vector11 vector01 feature_a.
Proof.
  unfold Engine.same_at. vm_compute. intros H.
  inversion H as [? ? E|]. discriminate E.
Qed.

Lemma feature_a_declared : feature_a ∈ Engine.features bundle_ab.
Proof. apply list_elem_of_here. Qed.

Lemma compare_antisymmetric_witness :
  Engine.validate bundle_ab vector11 = None
  ∧ Engine.validate bundle_ab vector01 = None
  ∧ (∃ f, f ∈ Engine.features bundle_ab ∧ ¬ Engine.same_at vector11 vector01 f)
  ∧ ∃ r r' w1 w2,
      Engine.compare describe bundle_ab vector11 vector01 world0 = (Engine.Ok r, w1)
      ∧ Engine.compare describe bundle_ab vector01 vector11 world0 = (Engine.Ok r', w2)
      ∧ Engine.probability_change r == - Engine.probability_change r'.
Proof.
  assert (∃ f, f ∈ Engine.features bundle_ab ∧ ¬ Engine.same_at vector11 vector01 f) as D.
  { exists feature_a. split; [apply feature_a_declared|apply feature_a_differs]. }
  split; [reflexivity|]. split; [reflexivity|]. split; [exact D|].
  destruct (EngineFacts.compare_antisymmetric describe bundle_ab vector11 vector01
              world0 world0 eq_refl eq_refl D)
    as (r & r' & w1 & w2 & E1 & E2 & _ & _ & _ & A).
  by exists r, r', w1, w2.
Defined.

Lemma compare_key_changes_witness :
  Engine.validate bundle_ab vector11 = None
  ∧ Engine.validate bundle_ab vector01 = None
  ∧ (∃ f, f ∈ Engine.features bundle_ab ∧ ¬ Engine.same_at vector11 vector01 f)
  ∧ ∃ r w changed,
      Engine.compare describe bundle_ab vector11 vector01 world0 = (Engine.Ok r, w)
      ∧ changed `sublist_of` Engine.features bundle_ab
      ∧ Engine.key_changes r
        = map (λ f, describe (Engine.fname f) (Engine.value vector11 f)
                      (Engine.value vector01 f))
              changed.
Proof.
  assert (∃ f, f ∈ Engine.features bundle_ab ∧ ¬ Engine.same_at vector11 vector01 f) as D.
  { exists feature_a. split; [apply feature_a_declared|apply feature_a_differs]. }
  split; [reflexivity|]. split; [reflexivity|]. split; [exact D|].
  destruct (EngineFacts.compare_key_changes describe bundle_ab vector11 vector01
              world0 eq_refl eq_refl D)
    as (r & w & changed & E & S & _ & _ & K & _).
  by exists r, w, changed.
Defined.

(** The change list of that comparison, spelled out: only [a] differs. *)
Example key_changes_scenario :
  ∃ r w, Engine.compare describe bundle_ab vector11 vector01 world0 = (Engine.Ok r, w)
         ∧ Engine.key_changes r = ["a changed"]%string.
Proof. eexists _, _. split; [by vm_compute|]. by vm_compute. Qed.

(** *** The local history *)

Lemma addToHistory_cap_witness :
  Api.result response82 = Some prediction82
  ∧ ∃ entry h',
      UseLocalHistory.addToHistory now iso "diabetes" ∅ response82 fullHook
      = Some (entry, h')
      ∧ (length (UseLocalHistory.history h') ≤ 50)%nat
      ∧ head (UseLocalHistory.history h') = Some entry
      ∧ UseLocalHistory.stored h' = Some (UseLocalHistory.history h').
Proof.
  split; [reflexivity|].
  destruct (LocalHistoryFacts.addToHistory_cap now iso "diabetes" ∅ response82
              prediction82 fullHook eq_refl)
    as (entry & h' & E & _ & L & _ & H & Hh & _ & _ & _).
  exists entry, h'. split; [exact E|]. split; [exact L|]. split; [exact H|].
  injection E as _ <-. reflexivity.
Defined.

(** With fifty entries already there, the oldest one is the one that goes. *)
Example addToHistory_drops_oldest :
  ∃ entry h',
    UseLocalHistory.addToHistory now iso "diabetes" ∅ response82 fullHook
    = Some (entry, h')
    ∧ length (UseLocalHistory.history h') = 50%nat
    ∧ UseLocalHistory.id <$> last (UseLocalHistory.history fullHook) = Some 49%Z
    ∧ UseLocalHistory.id <$> last (UseLocalHistory.history h') = Some 48%Z.
Proof. eexists _, _. split; [reflexivity|]. by vm_compute. Qed.

(** *** The diabetes page *)

Lemma glucose_declared : glucose ∈ DiabetesPredictor.formFields.
Proof. apply list_elem_of_further, list_elem_of_here. Qed.

Lemma cholesterol_declared : cholesterol ∈ HeartPredictor.formFields.
Proof. do 4 apply list_elem_of_further. apply list_elem_of_here. Qed.

Lemma handleSubmit_missing_field_witness :
  glucose ∈ DiabetesPredictor.formFields
  ∧ (formDataNoGlucose !! "glucose" = None ∨ formDataNoGlucose !! "glucose" = Some ""%string)
  ∧ DiabetesPredictor.errors
      (DiabetesPredictor.handleSubmit Decimal.parseDecimal predict82 typeErrorMessage
         now iso (page formDataNoGlucose)) !! "glucose"
    = Some Form.Required
  ∧ DiabetesPredictor.requests
      (DiabetesPredictor.handleSubmit Decimal.parseDecimal predict82 typeErrorMessage
         now iso (page formDataNoGlucose))
    = []
  ∧ HeartPredictor.errors
      (HeartPredictor.handleSubmit Decimal.parseDecimal predict82 heartPage) !! "cholesterol"
    = Some Form.Required
  ∧ HeartPredictor.requests
      (HeartPredictor.handleSubmit Decimal.parseDecimal predict82 heartPage)
    = [].
Proof.
  assert (formDataNoGlucose !! "glucose" = None
          ∨ formDataNoGlucose !! "glucose" = Some ""%string) as M by (left; reflexivity).
  split; [apply glucose_declared|]. split; [exact M|].
  destruct (SubmissionFacts.handleSubmit_missing_field Decimal.parseDecimal predict82
              predict82 typeErrorMessage now iso) as [D H].
  destruct (D (page formDataNoGlucose) glucose glucose_declared M) as (_ & E & R & _).
  destruct (H heartPage cholesterol cholesterol_declared (or_introl eq_refl))
    as (E' & R' & _).
  split; [exact E|]. split; [exact R|]. split; [exact E'|exact R'].
Defined.

Lemma handleSubmit_persistence_witness :
  snd (DiabetesPredictor.validateForm Decimal.parseDecimal (page formData)) = true
  ∧ DiabetesPredictor.requests submitted
    = [DiabetesPredictor.payload Decimal.parseDecimal formData]
  ∧ length (UseLocalHistory.history (DiabetesPredictor.hook submitted)) = 1%nat.
Proof.
  assert (snd (DiabetesPredictor.validateForm Decimal.parseDecimal (page formData)) = true)
    as V by (by vm_compute).
  split; [exact V|].
  destruct (PredictorFacts.handleSubmit_persistence Decimal.parseDecimal predict82
              typeErrorMessage now iso (page formData)) as [_ H].
  destruct (H V) as [R P]. split; [exact R|].
  simpl in P. destruct P as (Hh & _). unfold submitted. rewrite Hh. reflexivity.
Defined.

(** A submission that is answered leaves the inputs and the prediction in
    [localStorage]: before it the storage has no history, after it the
    history holds one entry with the submitted glucose value, the
    prediction and its probability. *)
Lemma handleSubmit_stores_inputs :
  UseLocalHistory.stored (DiabetesPredictor.hook (page formData)) = None
  ∧ ∃ entry,
      UseLocalHistory.stored (DiabetesPredictor.hook submitted) = Some [entry]
      ∧ UseLocalHistory.inputs entry !! "glucose" = Some (Js.Number (Js.Num 148))
      ∧ UseLocalHistory.inputs entry !! "age" = Some (Js.Number (Js.Num 50))
      ∧ UseLocalHistory.prediction entry = 1%Z
      ∧ UseLocalHistory.probability entry = 82 # 100
      ∧ UseLocalHistory.confidenceLevel entry = "HIGH"%string.
Proof.
  split; [reflexivity|]. eexists. split; [by vm_compute|]. by vm_compute.
Qed.

(** When the backend is down, or the form is incomplete, nothing is
    stored. *)
Example handleSubmit_stores_nothing_on_failure :
  UseLocalHistory.stored
    (DiabetesPredictor.hook
       (DiabetesPredictor.handleSubmit Decimal.parseDecimal predictDown typeErrorMessage
          now iso (page formData))) = None
  ∧ UseLocalHistory.stored
      (DiabetesPredictor.hook
         (DiabetesPredictor.handleSubmit Decimal.parseDecimal predict82 typeErrorMessage
            now iso (page formDataNoGlucose))) = None.
Proof. split; by vm_compute. Qed.

(** *** The what-if panel *)



(** Original [{a: 1, b: 1}] and modified [{a: 1, b: 1}] on the panel: the
    click never reaches the backend. Nothing happens: no request, no result,
    nothing on the console. *)
Lemma clickCompare_unchanged_no_error :
  WhatIfSlider.hasChanges values11
    (WhatIfSlider.modifiedValues (WhatIfSlider.initial values11)) = false
  ∧ WhatIfSlider.console
      (WhatIfSlider.clickCompare whatIf0 values11 (WhatIfSlider.initial values11)) = []
  ∧ WhatIfSlider.analyses
      (WhatIfSlider.clickCompare whatIf0 values11 (WhatIfSlider.initial values11)) = []
  ∧ WhatIfSlider.comparisonResult
      (WhatIfSlider.clickCompare whatIf0 values11 (WhatIfSlider.initial values11)) = None
  ∧ ¬ WhatIfSlider.reportsFailure (WhatIfSlider.initial values11)
        (WhatIfSlider.clickCompare whatIf0 values11 (WhatIfSlider.initial values11)).
Proof.
  assert (WhatIfSlider.clickCompare whatIf0 values11 (WhatIfSlider.initial values11)
          = WhatIfSlider.initial values11) as E by (by vm_compute).
  rewrite E. split; [by vm_compute|]. do 3 (split; [reflexivity|]).
  apply WhatIfFacts.no_failure_without_change.
Qed.

(** Once a slider has been moved, the same click does send the request. *)
Example clickCompare_after_change :
  WhatIfSlider.analyses
    (WhatIfSlider.clickCompare whatIf0 values11
       (WhatIfSlider.handleSliderChange Decimal.parseDecimal "a" "0"
          (WhatIfSlider.initial values11)))
  = [(values11, <["a" := Js.Num 0]> values11)].
Proof. by vm_compute. Qed.

End Scenarios.

(** ** More worked scenarios *)

Module MoreScenarios.

Import Sample.

Local Open Scope Q_scope.

(** *** The history hook *)

Lemma calls_keep_cap_witness :
  (length (UseLocalHistory.history fullHook) ≤ UseLocalHistory.MAX_HISTORY)%nat
  ∧ (length (UseLocalHistory.history (HookCalls.calls someCalls fullHook))
     ≤ UseLocalHistory.MAX_HISTORY)%nat.
Proof.
  assert (length (UseLocalHistory.history fullHook) ≤ UseLocalHistory.MAX_HISTORY)%nat
    as H by (vm_compute; lia).
  split; [exact H|]. exact (HookCallFacts.calls_keep_cap someCalls fullHook H).
Defined.

Lemma fillingHook_takes_someCalls (n : nat) :
  (n < length someCalls)%nat →
  UseLocalHistory.throws (UseLocalHistory.localStorage fillingHook) n = false.
Proof.
  intros Hn. destruct n as [|[|[|n]]]; [reflexivity..|]. simpl in Hn. lia.
Qed.

Lemma calls_keep_in_step_witness :
  UseLocalHistory.stored fillingHook = Some (UseLocalHistory.history fillingHook)
  ∧ UseLocalHistory.stored (HookCalls.calls someCalls fillingHook)
    = Some (UseLocalHistory.history (HookCalls.calls someCalls fillingHook))
  ∧ UseLocalHistory.full
      (UseLocalHistory.localStorage (HookCalls.calls someCalls fillingHook)) = true
  ∧ UseLocalHistory.history
      (UseLocalHistory.saveHistory [] (HookCalls.calls someCalls fillingHook)) = []
  ∧ UseLocalHistory.stored
      (UseLocalHistory.saveHistory [] (HookCalls.calls someCalls fillingHook))
    = Some (UseLocalHistory.history (HookCalls.calls someCalls fillingHook))
  ∧ UseLocalHistory.stored
      (UseLocalHistory.saveHistory [nanEntry]
         (UseLocalHistory.saveHistory [] (HookCalls.calls someCalls fillingHook)))
    = Some [nanEntry].
Proof.
  split; [reflexivity|].
  destruct (HookCallFacts.calls_keep_in_step someCalls fillingHook [] [nanEntry] eq_refl
              fillingHook_takes_someCalls) as [S F].
  split; [exact S|]. split; [reflexivity|].
  destruct (F eq_refl) as (H1 & H2 & H3).
  split; [exact H1|]. split; [exact H2|]. exact (proj1 (H3 eq_refl)).
Defined.

(** A history saved with a [NaN] among its inputs comes back from the
    storage with [null] in its place, and with nothing else changed. *)
Example reload_turns_NaN_into_null :
  UseLocalHistory.history
    (UseLocalHistory.mount
       (UseLocalHistory.localStorage (UseLocalHistory.saveHistory [nanEntry] emptyHook)))
  = [{| UseLocalHistory.id := 7;
        UseLocalHistory.timestamp := "2024-01-28T10:00:00.000Z";
        UseLocalHistory.disease := "heart";
        UseLocalHistory.inputs :=
          {[ "cholesterol" := Js.Null; "age" := Js.Number (Js.Num 50) ]};
        UseLocalHistory.prediction := 1;
        UseLocalHistory.probability := 3 # 4;
        UseLocalHistory.confidenceLevel := "MEDIUM" |}].
Proof. by vm_compute. Qed.

Lemma addToHistory_views_witness :
  ∃ entry h',
    UseLocalHistory.addToHistory now iso "diabetes" ∅ response82 fullHook = Some (entry, h')
    ∧ head (UseLocalHistory.getHistoryByDisease "diabetes" h') = Some entry.
Proof.
  eexists _, _. split; [reflexivity|].
  exact (proj1 (HookCallFacts.addToHistory_views now iso "diabetes" "heart" ∅ response82
                  fullHook _ _ eq_refl)).
Defined.

(** *** The diabetes page *)

Lemma bmi_declared : bmi ∈ DiabetesPredictor.formFields.
Proof. do 5 apply list_elem_of_further. apply list_elem_of_here. Qed.

Lemma formData_validates :
  snd (DiabetesPredictor.validateForm Decimal.parseDecimal (page formData)) = true.
Proof. by vm_compute. Qed.

Lemma handleSubmit_rejects_bad_number_witness :
  bmi ∈ DiabetesPredictor.formFields
  ∧ formDataBadBmi !! "bmi" = Some "200"%string
  ∧ Decimal.parseDecimal "200" = Js.Num 200
  ∧ DiabetesPredictor.errors
      (DiabetesPredictor.handleSubmit Decimal.parseDecimal predict82 typeErrorMessage
         now iso (page formDataBadBmi)) !! "bmi"
    = Some (Form.OutOfRange 10 70)
  ∧ DiabetesPredictor.requests
      (DiabetesPredictor.handleSubmit Decimal.parseDecimal predict82 typeErrorMessage
         now iso (page formDataBadBmi))
    = [].
Proof.
  split; [apply bmi_declared|]. split; [reflexivity|]. split; [reflexivity|].
  destruct (PageFacts.handleSubmit_rejects_bad_number Decimal.parseDecimal predict82
              typeErrorMessage now iso (page formDataBadBmi) bmi "200"
              bmi_declared eq_refl)
    as (_ & E & R & _).
  - done.
  - right. exists 200. split; [reflexivity|]. right. by vm_compute.
  - split; [exact E|exact R].
Defined.

Lemma handleSubmit_rejected_witness :
  snd (DiabetesPredictor.validateForm Decimal.parseDecimal (page formData)) = true
  ∧ DiabetesPredictor.apiError
      (DiabetesPredictor.handleSubmit Decimal.parseDecimal predictDown typeErrorMessage
         now iso (page formData))
    = Some "API Error: 500"%string
  ∧ DiabetesPredictor.result
      (DiabetesPredictor.handleSubmit Decimal.parseDecimal predictDown typeErrorMessage
         now iso (page formData))
    = None.
Proof.
  split; [exact formData_validates|].
  destruct (PageFacts.handleSubmit_rejected Decimal.parseDecimal predictDown
              typeErrorMessage now iso (page formData) "API Error: 500"
              formData_validates eq_refl)
    as (E & _ & _ & R & _).
  split; [exact E|exact R].
Defined.


(** The same form against a backend that is down: the request is rejected,
    no result is set, and the render shows the form with the error. *)
Example rejected_request_is_shown :
  DiabetesPanels.render
    (DiabetesPredictor.handleSubmit Decimal.parseDecimal predictDown typeErrorMessage
       now iso (page formData))
  = Some (DiabetesPanels.ShowsForm (Some "API Error: 500"%string)).
Proof. by vm_compute. Qed.

Lemma handleSubmit_then_reset_panel_witness :
  snd (DiabetesPredictor.validateForm Decimal.parseDecimal (page formData)) = true
  ∧ Api.result response82 = Some prediction82
  ∧ DiabetesPanels.historyPanelShown submitted = false
  ∧ DiabetesPanels.historyPanelShown (DiabetesPredictor.handleReset submitted) = true.
Proof.
  split; [exact formData_validates|]. split; [reflexivity|].
  destruct (PageFacts.handleSubmit_then_reset_panel Decimal.parseDecimal predict82
              typeErrorMessage now iso (page formData) response82 prediction82
              formData_validates eq_refl eq_refl)
    as (_ & _ & H1 & H2 & _).
  split; [exact H1|exact H2].
Defined.

Lemma others_pass_without_glucose (g : Form.Field) :
  g ∈ DiabetesPredictor.formFields → Form.name g ≠ Form.name glucose →
  DiabetesPredictor.checkField Decimal.parseDecimal
    (DiabetesPredictor.formData (page formDataNoGlucose)) g = None.
Proof.
  intros Hg Hn. unfold DiabetesPredictor.formFields in Hg.
  repeat (apply elem_of_cons in Hg as [->|Hg];
          [first [by vm_compute | by destruct Hn]|]).
  by apply elem_of_nil in Hg.
Qed.

Lemma handleChange_fixes_form_witness :
  glucose ∈ DiabetesPredictor.formFields
  ∧ Decimal.parseDecimal "148" = Js.Num 148
  ∧ snd (DiabetesPredictor.validateForm Decimal.parseDecimal
           (DiabetesPredictor.handleChange "glucose" "148" (page formDataNoGlucose)))
    = true.
Proof.
  split; [apply Scenarios.glucose_declared|]. split; [reflexivity|].
  refine (proj1 (PageFacts.handleChange_fixes_form Decimal.parseDecimal
                   (page formDataNoGlucose) glucose "148" 148
                   Scenarios.glucose_declared others_pass_without_glucose _ eq_refl _ _)).
  - done.
  - by vm_compute.
  - by vm_compute.
Defined.

(** *** The what-if panel *)

Lemma whatIf_opens_unchanged_witness :
  snd (DiabetesPredictor.validateForm Decimal.parseDecimal (page formData)) = true
  ∧ WhatIfSlider.compareDisabled
      (DiabetesPredictor.originalValues Decimal.parseDecimal (page formData))
      (WhatIfSlider.initial
         (DiabetesPredictor.originalValues Decimal.parseDecimal (page formData)))
    = true.
Proof.
  split; [exact formData_validates|].
  destruct (PanelFacts.whatIf_opens_unchanged Decimal.parseDecimal
              (page formData) formData_validates)
    as (_ & H & _).
  exact H.
Defined.

Lemma values11_numbers (key : string) : values11 !! key ≠ Some Js.NaN.
Proof.
  unfold values11. simpl. intros Hv.
  apply lookup_insert_Some in Hv as [[_ ?]|[_ Hv]]; [done|].
  apply lookup_insert_Some in Hv as [[_ ?]|[_ Hv]]; [done|].
  by rewrite lookup_empty in Hv.
Qed.

Lemma slider_change_and_back_witness :
  values11 !! "a" = Some (Js.Num 1)
  ∧ Decimal.parseDecimal "0" = Js.Num 0
  ∧ Decimal.parseDecimal "1" = Js.Num 1
  ∧ WhatIfSlider.hasChanges values11
      (WhatIfSlider.modifiedValues
         (WhatIfSlider.handleSliderChange Decimal.parseDecimal "a" "0"
            (WhatIfSlider.initial values11))) = true
  ∧ WhatIfSlider.hasChanges values11
      (WhatIfSlider.modifiedValues
         (WhatIfSlider.handleSliderChange Decimal.parseDecimal "a" "1"
            (WhatIfSlider.handleSliderChange Decimal.parseDecimal "a" "0"
               (WhatIfSlider.initial values11)))) = false.
Proof.
  split; [reflexivity|]. split; [reflexivity|]. split; [reflexivity|].
  refine (PanelFacts.slider_change_and_back Decimal.parseDecimal values11 "a" "0" "1"
            1 0 1 values11_numbers eq_refl eq_refl _ eq_refl _).
  - by vm_compute.
  - by vm_compute.
Defined.

Lemma nan_original_always_changed_witness :
  valuesNaN !! "a" = Some Js.NaN
  ∧ WhatIfSlider.hasChanges valuesNaN
      (WhatIfSlider.modifiedValues (WhatIfSlider.initial valuesNaN)) = true
  ∧ WhatIfSlider.resetDisabled valuesNaN
      (WhatIfSlider.handleReset valuesNaN (WhatIfSlider.initial valuesNaN)) = false.
Proof.
  split; [reflexivity|].
  destruct (PanelFacts.nan_original_always_changed valuesNaN "a"
              (WhatIfSlider.initial valuesNaN) eq_refl) as (H1 & _ & H3).
  split; [exact H1|exact H3].
Defined.

Lemma c_not_original : "c" ∉ dom values11.
Proof. apply not_elem_of_dom. reflexivity. Qed.

Lemma slider_outside_original_ignored_witness :
  values11 !! "c" = None
  ∧ WhatIfSlider.hasChanges values11
      (WhatIfSlider.modifiedValues
         (WhatIfSlider.handleSliderChange Decimal.parseDecimal "c" "5"
            (WhatIfSlider.initial values11)))
    = WhatIfSlider.hasChanges values11
        (WhatIfSlider.modifiedValues (WhatIfSlider.initial values11)).
Proof.
  split; [reflexivity|].
  exact (PanelFacts.slider_outside_original_ignored Decimal.parseDecimal values11 "c" "5"
           (WhatIfSlider.initial values11) c_not_original).
Defined.

Lemma a_is_original : Form.name field_a ∈ dom values11.
Proof. apply elem_of_dom. by eexists. Qed.

Lemma isChanged_counts_witness :
  WhatIfSlider.isChanged values11
    (WhatIfSlider.handleSliderChange Decimal.parseDecimal "a" "0"
       (WhatIfSlider.initial values11)) field_a = true
  ∧ WhatIfSlider.hasChanges values11
      (WhatIfSlider.modifiedValues
         (WhatIfSlider.handleSliderChange Decimal.parseDecimal "a" "0"
            (WhatIfSlider.initial values11))) = true.
Proof.
  split; [by vm_compute|].
  refine (proj1 (PanelFacts.isChanged_counts values11
                   (WhatIfSlider.handleSliderChange Decimal.parseDecimal "a" "0"
                      (WhatIfSlider.initial values11)) field_a a_is_original _)).
  by vm_compute.
Defined.

(** The converse fails: with an original value that is not a number and a
    slider at 0, the panel counts a change although no slider shows one. *)
Example hasChanges_without_arrow :
  WhatIfSlider.hasChanges valuesNaN
    (WhatIfSlider.modifiedValues
       (WhatIfSlider.handleSliderChange Decimal.parseDecimal "a" "0"
          (WhatIfSlider.initial valuesNaN))) = true
  ∧ WhatIfSlider.isChanged valuesNaN
      (WhatIfSlider.handleSliderChange Decimal.parseDecimal "a" "0"
         (WhatIfSlider.initial valuesNaN)) field_a = false.
Proof. split; by vm_compute. Qed.

Lemma clickCompare_outcomes_witness :
  WhatIfSlider.compareDisabled values11
    (WhatIfSlider.handleSliderChange Decimal.parseDecimal "a" "0"
       (WhatIfSlider.initial values11)) = false
  ∧ WhatIfSlider.analyses
      (WhatIfSlider.clickCompare whatIf0 values11
         (WhatIfSlider.handleSliderChange Decimal.parseDecimal "a" "0"
            (WhatIfSlider.initial values11)))
    = [(values11, <["a" := Js.Num 0]> values11)].
Proof.
  assert (WhatIfSlider.compareDisabled values11
            (WhatIfSlider.handleSliderChange Decimal.parseDecimal "a" "0"
               (WhatIfSlider.initial values11)) = false) as H by (by vm_compute).
  split; [exact H|].
  destruct (PanelFacts.clickCompare_outcomes whatIf0 values11
              (WhatIfSlider.handleSliderChange Decimal.parseDecimal "a" "0"
                 (WhatIfSlider.initial values11)) H) as (E & _).
  exact E.
Defined.

(** *** The API client and the heart page *)

Lemma handleSubmit_http_failure_witness :
  snd (DiabetesPredictor.validateForm Decimal.parseDecimal (page formData)) = true
  ∧ DiabetesPredictor.apiError
      (DiabetesPredictor.handleSubmit Decimal.parseDecimal
         (λ b, ApiClient.apiRequest syntaxErrorMessage typeErrorMessage (server422 b))
         typeErrorMessage now iso (page formData))
    = Some "API Error: 422"%string.
Proof.
  split; [exact formData_validates|].
  destruct (ClientFacts.handleSubmit_http_failure syntaxErrorMessage typeErrorMessage
              Decimal.parseDecimal server422 now iso (page formData) 422
              (ApiClient.Value None) formData_validates eq_refl) as (E & _).
  exact E.
Defined.

Lemma heartForm_complete (f : HeartPredictor.Field) :
  f ∈ HeartPredictor.formFields →
  ∃ value, HeartPredictor.formData heartPageFilled !! HeartPredictor.name f = Some value
           ∧ value ≠ ""%string.
Proof.
  intros Hf. unfold HeartPredictor.formFields in Hf.
  repeat (apply elem_of_cons in Hf as [->|Hf]; [by eexists|]).
  by apply elem_of_nil in Hf.
Qed.

Lemma heart_complete_form_posted_witness :
  (∀ f, f ∈ HeartPredictor.formFields →
     ∃ value, HeartPredictor.formData heartPageFilled !! HeartPredictor.name f = Some value
              ∧ value ≠ ""%string)
  ∧ HeartPredictor.requests
      (HeartPredictor.handleSubmit Decimal.parseDecimal predict82 heartPageFilled)
    = [HeartPredictor.payload Decimal.parseDecimal heartFormData]
  ∧ HeartPredictor.payload Decimal.parseDecimal heartFormData !! "cholesterol"
    = Some Js.NaN.
Proof.
  split; [exact heartForm_complete|].
  destruct (HeartSubmitFacts.heart_complete_form_posted Decimal.parseDecimal predict82
              heartPageFilled heartForm_complete) as (R & _).
  split; [exact R|]. by vm_compute.
Defined.

Lemma percentage_bounds_witness :
  0 <= 82 # 100 ∧ 82 # 100 <= 1
  ∧ (0 ≤ ConfidenceMeter.percentage (82 # 100) ≤ 100)%Z.
Proof.
  assert (0 <= 82 # 100) as H0 by (by vm_compute).
  assert (82 # 100 <= 1) as H1 by (by vm_compute).
  split; [exact H0|]. split; [exact H1|].
  exact (WidgetFacts.percentage_bounds (82 # 100) H0 H1).
Defined.

End MoreScenarios.
